(** * coral: base sequence classes ([coral/sequence/_sequence.py])

    A shallow embedding of [Sequence] and [Feature] together with the parts
    of the Python runtime they call ([str.upper], [str.replace], [bin],
    [int], [sum], and the fragment of [re] that the class uses), followed by
    the properties of the sequence container, of features and of annealing. *)

From Stdlib Require Import Bool Arith ZArith Lia List Sorted Ascii String QArith.
Import ListNotations.

Close Scope Q_scope.
Local Open Scope list_scope.

(** ** Python runtime *)

(** Python 2 [str] values are byte strings. *)
Abbreviation str := (list ascii) (only parsing).

Coercion list_ascii_of_string : string >-> list.

(** Exceptions that the modelled code raises or lets through. *)
Inductive exn : Type :=
| AlphabetError
| ValueError
| TypeError
| AttributeError
| ZeroDivisionError
| OverflowError
| ReError
| PrimerLengthError
| IndexError.

(** Outcome of a call.  [NotModelled] marks a call that leaves the fragment
    of the [re] syntax covered by [Re.parse] below. *)
Inductive result (A : Type) : Type :=
| Ok (a : A)
| Raise (e : exn)
| NotModelled.

Arguments Ok {A} a.
Arguments Raise {A} e.
Arguments NotModelled {A}.

Definition bind {A B : Type} (m : result A) (k : A -> result B) : result B :=
  match m with
  | Ok a => k a
  | Raise e => Raise e
  | NotModelled => NotModelled
  end.

Notation "x <- m ;; k" := (bind m (fun x => k))
  (at level 61, m at next level, right associativity).

Module PyStr.

Definition is_lower (c : ascii) : bool :=
  ((97 <=? nat_of_ascii c) && (nat_of_ascii c <=? 122))%nat.

Definition is_upper (c : ascii) : bool :=
  ((65 <=? nat_of_ascii c) && (nat_of_ascii c <=? 90))%nat.

Definition upper_char (c : ascii) : ascii :=
  if is_lower c then ascii_of_nat (nat_of_ascii c - 32) else c.

Definition lower_char (c : ascii) : ascii :=
  if is_upper c then ascii_of_nat (nat_of_ascii c + 32) else c.

(** [s.upper()] and [s.lower()] *)
Definition upper (s : str) : str := map upper_char s.
Definition lower (s : str) : str := map lower_char s.

(** [c in s] for a one-character [c] *)
Definition mem (c : ascii) (s : str) : bool := existsb (Ascii.eqb c) s.

(** [s.startswith(p)] *)
Fixpoint startswith (p s : str) : bool :=
  match p, s with
  | [], _ => true
  | _ :: _, [] => false
  | a :: p', b :: s' => Ascii.eqb a b && startswith p' s'
  end.

(** [s.replace(old, new)]: left to right, occurrences do not overlap; an
    empty [old] puts [new] before every character and at the end.
    [skip] counts the characters of a consumed occurrence that are still
    to be dropped. *)
Fixpoint replace_from (old new : str) (skip : nat) (s : str) : str :=
  match s with
  | [] => match old with [] => new | _ :: _ => [] end
  | c :: s' =>
      match skip with
      | S k => replace_from old new k s'
      | O =>
          match old with
          | [] => new ++ c :: replace_from old new O s'
          | _ :: _ =>
              if startswith old s
              then new ++ replace_from old new (List.length old - 1) s'
              else c :: replace_from old new O s'
          end
      end
  end.

Definition replace (s old new : str) : str := replace_from old new 0 s.

(** Binary digits of a positive number, most significant first. *)
Fixpoint bin_digits (p : positive) : str :=
  match p with
  | xH => "1"%string
  | xO q => bin_digits q ++ "0"%string
  | xI q => bin_digits q ++ "1"%string
  end.

(** [bin(n)] *)
Definition bin (n : Z) : str :=
  match n with
  | Z0 => "0b0"%string
  | Zpos p => "0b"%string ++ bin_digits p
  | Zneg p => "-0b"%string ++ bin_digits p
  end.

(** [int(x)] for a one-character string [x] *)
Definition int_of_char (c : ascii) : result Z :=
  let n := nat_of_ascii c in
  if ((48 <=? n) && (n <=? 57))%nat then Ok (Z.of_nat (n - 48))
  else Raise ValueError.

(** [[int(x) for x in s]] *)
Fixpoint ints_of (s : str) : result (list Z) :=
  match s with
  | [] => Ok []
  | c :: s' =>
      d <- int_of_char c ;;
      ds <- ints_of s' ;;
      Ok (d :: ds)
  end.

End PyStr.

(** ** The fragment of [re] used by [Sequence] *)

Module Re.

(** Characters with a meaning of their own in a pattern. *)
Definition special (c : ascii) : bool :=
  PyStr.mem c ".^$*+?{}[]\|()"%string.

Inductive atom : Type :=
| Lit (c : ascii)
| Dot.

(** A pattern made of literal characters and [.]; any other special
    character is outside the fragment. *)
Fixpoint parse (p : str) : option (list atom) :=
  match p with
  | [] => Some []
  | c :: p' =>
      match parse p' with
      | None => None
      | Some r =>
          if Ascii.eqb c "."%char then Some (Dot :: r)
          else if special c then None
          else Some (Lit c :: r)
      end
  end.

(** [.] matches every character but the newline. *)
Definition atom_matches (a : atom) (c : ascii) : bool :=
  match a with
  | Lit x => Ascii.eqb x c
  | Dot => negb (Ascii.eqb c "010"%char)
  end.

(** The pattern matches a prefix of [s]. *)
Fixpoint match_here (r : list atom) (s : str) : bool :=
  match r, s with
  | [], _ => true
  | _ :: _, [] => false
  | a :: r', c :: s' => atom_matches a c && match_here r' s'
  end.

(** Start offsets of the matches of [(?=r)], scanning from offset [i]:
    the lookahead consumes nothing, so every offset up to and including
    the end of the string is tried. *)
Fixpoint lookahead_starts (r : list atom) (i : nat) (s : str) : list nat :=
  (if match_here r s then [i] else []) ++
  match s with
  | [] => []
  | _ :: s' => lookahead_starts r (S i) s'
  end.

(** [[m.start() for m in re.finditer('(?=' + p + ')', s)]] *)
Definition finditer_lookahead (p s : str) : result (list nat) :=
  match parse p with
  | Some r => Ok (lookahead_starts r 0 s)
  | None => NotModelled
  end.

Fixpoint search_from (r : list atom) (s : str) : bool :=
  match_here r s ||
  match s with
  | [] => false
  | _ :: s' => search_from r s'
  end.

(** Truth value of [re.search(p, s)] *)
Definition search (p s : str) : result bool :=
  match parse p with
  | Some r => Ok (search_from r s)
  | None => NotModelled
  end.

(** [re.sub(p, repl, s)] for a pattern [p] without special characters,
    where it is [s.replace(p, repl)]. *)
Definition sub (p repl s : str) : result str :=
  if existsb special p then NotModelled
  else Ok (PyStr.replace s p repl).

(** Truth value of [re.search('[^' + re.escape(cs) + ']', s)].
    [re.escape] puts a backslash before every non-alphanumeric character,
    so the class is the complement of the characters of [cs]; with [cs]
    empty the pattern is ['[^]'], which [re] refuses to compile. *)
Definition search_not_in (cs s : str) : result bool :=
  match cs with
  | [] => Raise ReError
  | _ :: _ => Ok (existsb (fun c => negb (PyStr.mem c cs)) s)
  end.

End Re.

(** ** Values that reach the operators of [Sequence] *)

(** A Python [float]: a finite one is given by its exact value. *)
Inductive pyfloat : Type :=
| Finite (q : Q)
| Inf (negative : bool)
| NaN.

Module Seq.

(** The alphabet object ([coral.sequence.alphabets]): its symbols and,
    when it has one, its complement mapping. *)
Record Alphabet : Type := mkAlphabet {
  symbols : str;
  complement : option (list (ascii * ascii))
}.

(** An instance: [cls] is [type(self)], the other fields are the
    attributes set by [__init__]. *)
Record Sequence : Type := mkSequence {
  cls : string;
  seq : str;
  alphabet : Alphabet;
  any_char : str;
  name : str
}.

Inductive pyval : Type :=
| PyNone
| PyInt (z : Z)
| PyFloat (f : pyfloat)
| PyStr (s : str)
| PySeq (x : Sequence).

Definition with_seq (x : Sequence) (s : str) : Sequence :=
  {| cls := cls x; seq := s; alphabet := alphabet x;
     any_char := any_char x; name := name x |}.

(** [Sequence.__init__], called as [cls(sequence, alphabet, ...)] *)
Definition init (cls : string) (sequence : str) (alphabet : Alphabet)
    (skip_checks : bool) (any_char : str) (name : option str)
    : result Sequence :=
  s <- (if negb skip_checks then
          let s := PyStr.upper sequence in
          let symbols := symbols alphabet in
          bad <- Re.search_not_in (symbols ++ PyStr.lower symbols) s ;;
          if bad : bool then Raise AlphabetError else Ok s
        else Ok sequence) ;;
  Ok {| cls := cls; seq := s; alphabet := alphabet; any_char := any_char;
        name := match name with None => [] | Some n => n end |}.

(** [Sequence.__str__] *)
Definition to_str (self : Sequence) : str := seq self.

(** [Sequence.__len__] *)
Definition len (self : Sequence) : nat := List.length (seq self).

(** [Sequence.copy] *)
Definition copy (self : Sequence) : result Sequence :=
  init (cls self) (seq self) (alphabet self) true (any_char self) None.

(** [a % b] on integers *)
Definition py_mod (a b : Z) : result Z :=
  if (b =? 0)%Z then Raise ZeroDivisionError else Ok (a mod b)%Z.

Fixpoint mapM {A B : Type} (f : A -> result B) (l : list A)
    : result (list B) :=
  match l with
  | [] => Ok []
  | a :: l' =>
      b <- f a ;;
      bs <- mapM f l' ;;
      Ok (b :: bs)
  end.

(** [Sequence.locate] *)
Definition locate (self : Sequence) (pattern : str) : result (list Z) :=
  if (len self <? List.length pattern)%nat then Raise ValueError
  else
    let seq := seq self in
    let pattern := PyStr.upper pattern in
    let pattern := PyStr.replace pattern (any_char self) "."%string in
    starts <- Re.finditer_lookahead pattern seq ;;
    mapM (fun index => py_mod (Z.of_nat index) (Z.of_nat (len self)))
         starts.

(** [Sequence.__contains__] *)
Definition contains (self : Sequence) (query : str) : result bool :=
  let query_str := PyStr.upper query in
  query_str <- Re.sub (any_char self) "."%string query_str ;;
  found <- Re.search query_str (to_str self) ;;
  if found : bool then Ok true else Ok false.

(** [Sequence.__eq__] against another sequence *)
Definition eq (self other : Sequence) : bool :=
  if list_eq_dec ascii_dec (to_str self) (to_str other) then true
  else false.

(** [int(n)] *)
Definition py_int (n : pyval) : result Z :=
  match n with
  | PyInt z => Ok z
  | PyFloat (Finite q) => Ok (Z.quot (Qnum q) (Zpos (Qden q)))
  | PyFloat (Inf _) => Raise OverflowError
  | PyFloat NaN => Raise ValueError
  | PyNone | PySeq _ => Raise TypeError
  | PyStr _ => NotModelled
  end.

(** [n != i] for an integer [i] *)
Definition py_ne_int (n : pyval) (i : Z) : bool :=
  match n with
  | PyInt z => negb (z =? i)%Z
  | PyFloat (Finite q) => negb (Qeq_bool q (inject_Z i))
  | _ => true
  end.

(** [other == 0] *)
Definition py_eq_zero (other : pyval) : bool :=
  match other with
  | PyInt z => (z =? 0)%Z
  | PyFloat (Finite q) => Qeq_bool q 0%Q
  | PySeq x => if list_eq_dec ascii_dec (to_str x) "0"%string then true
               else false
  | _ => false
  end.

(** [bin(n)]: only integers have a binary form. *)
Definition py_bin (n : pyval) : result str :=
  match n with
  | PyInt z => Ok (PyStr.bin z)
  | _ => Raise TypeError
  end.

Section Operators.

(** [init1 c other] is [c(other)] for a subclass [c] of [Sequence]: the
    subclasses and their one-argument constructors live in other
    modules of the package. *)
Variable init1 : string -> pyval -> result Sequence.

(** [type(self)(other)]: [Sequence] itself cannot be built from one
    argument, [alphabet] has no default; what a subclass builds is an
    instance of that subclass. *)
Definition construct1 (c : string) (other : pyval) : result Sequence :=
  if String.eqb c "Sequence" then Raise TypeError
  else
    y <- init1 c other ;;
    Ok {| cls := c; seq := seq y; alphabet := alphabet y;
          any_char := any_char y; name := name y |}.

(** [type(self) != type(other)] *)
Definition type_differs (self : Sequence) (other : pyval) : bool :=
  match other with
  | PySeq y => negb (String.eqb (cls self) (cls y))
  | _ => true
  end.

(** The [try] block shared by [__add__] and [__radd__] *)
Definition coerce (self : Sequence) (other : pyval) : result Sequence :=
  match other with
  | PySeq y =>
      if String.eqb (cls self) (cls y) then Ok y
      else match construct1 (cls self) other with
           | Raise AttributeError => Raise TypeError
           | r => r
           end
  | _ =>
      match construct1 (cls self) other with
      | Raise AttributeError => Raise TypeError
      | r => r
      end
  end.

(** [Sequence.__add__] *)
Definition add (self : Sequence) (other : pyval) : result Sequence :=
  other <- coerce self other ;;
  copy <- copy self ;;
  Ok (with_seq copy (seq copy ++ seq other)).

(** [Sequence.__radd__] *)
Definition radd (self : Sequence) (other : pyval) : result Sequence :=
  if py_eq_zero other
     || match other with PyNone => true | _ => false end
  then Ok self
  else
    other <- coerce self other ;;
    add self (PySeq other).

(** The [while] loop of [_decompose]; [todo] is
    [len(binary) + 1 - counter], the number of iterations left, so that
    [counter <= len(binary)] is [todo <> 0].  The result is the list
    of the values yielded, and how the generator ended. *)
Fixpoint decompose_loop (todo : nat) (binary : list Z)
    (new_string : Sequence) (counter : nat)
    : list Sequence * result unit :=
  match todo with
  | O => ([], Ok tt)
  | S todo' =>
      let yielded :=
        if (nth (List.length binary - counter) binary 0 =? 0)%Z
        then [] else [new_string] in
      match add new_string (PySeq new_string) with
      | Ok doubled =>
          let (rest, ending) :=
            decompose_loop todo' binary doubled (counter + 1) in
          (yielded ++ rest, ending)
      | Raise e => (yielded, Raise e)
      | NotModelled => (yielded, NotModelled)
      end
  end.

(** [_decompose(string, n)], run to its end *)
Definition _decompose (string : Sequence) (n : pyval)
    : list Sequence * result unit :=
  match (b <- py_bin n ;; PyStr.ints_of (skipn 2 b)) with
  | Ok binary => decompose_loop (List.length binary) binary string 1
  | Raise e => ([], Raise e)
  | NotModelled => ([], NotModelled)
  end.

(** [[x for x in g]] for a generator [g] that was run to its end *)
Definition collect {A : Type} (g : list A * result unit)
    : result (list A) :=
  _ <- snd g ;; Ok (fst g).

(** One step of [sum]: [acc + x].  Only a [Sequence] on the left has an
    [__add__] that accepts [x]; otherwise [x.__radd__(acc)] runs. *)
Definition sum_step (acc : pyval) (x : Sequence) : result pyval :=
  match acc with
  | PySeq a => r <- add a (PySeq x) ;; Ok (PySeq r)
  | _ => r <- radd x acc ;; Ok (PySeq r)
  end.

Fixpoint sum_from (acc : pyval) (xs : list Sequence) : result pyval :=
  match xs with
  | [] => Ok acc
  | x :: xs' => acc' <- sum_step acc x ;; sum_from acc' xs'
  end.

(** [sum(xs)] *)
Definition sum (xs : list Sequence) : result pyval :=
  sum_from (PyInt 0) xs.

(** [Sequence.__mul__] *)
Definition mul (self : Sequence) (n : pyval) : result pyval :=
  i <- py_int n ;;
  if py_ne_int n i then Raise TypeError
  else
    xs <- collect (_decompose self n) ;;
    sum xs.

End Operators.

End Seq.

(** ** Indexing, slicing and in-place edits *)

Module PySlice.

(** A subscript: an integer, or a slice [start:stop:step] whose parts may
    be [None]. *)
Inductive key : Type :=
| KInt (i : Z)
| KSlice (start stop step : option Z).

(** [l[i]] for an integer [i] on a list or string of length [len]: negative
    indices count from the end; outside the bounds is an [IndexError]. *)
Definition index (len : nat) (i : Z) : result nat :=
  let j := if (i <? 0)%Z then (i + Z.of_nat len)%Z else i in
  if ((j <? 0) || (Z.of_nat len <=? j))%Z then Raise IndexError
  else Ok (Z.to_nat j).

(** One bound of a slice brought into range, as [slice.indices] does; a
    missing bound is the far end in the direction of [step]. *)
Definition adjust (len step : Z) (is_stop : bool) (v : option Z) : Z :=
  match v with
  | None =>
      if (step <? 0)%Z then (if is_stop then -1 else len - 1)%Z
      else (if is_stop then len else 0)%Z
  | Some i =>
      if (i <? 0)%Z then
        let i' := (i + len)%Z in
        if (i' <? 0)%Z then (if (step <? 0)%Z then -1 else 0)%Z else i'
      else if (len <=? i)%Z then
        (if (step <? 0)%Z then len - 1 else len)%Z
      else i
  end.

(** Number of positions selected between adjusted bounds. *)
Definition slice_length (start stop step : Z) : nat :=
  if (step <? 0)%Z then
    if (stop <? start)%Z
    then Z.to_nat ((start - stop - 1) / (- step) + 1)
    else 0
  else
    if (start <? stop)%Z
    then Z.to_nat ((stop - start - 1) / step + 1)
    else 0.

(** The positions that a slice selects, in the order of selection; a zero
    step is a [ValueError]. *)
Definition positions (len : nat) (start stop step : option Z)
    : result (list nat) :=
  let st := match step with None => 1%Z | Some z => z end in
  if (st =? 0)%Z then Raise ValueError
  else
    let a := adjust (Z.of_nat len) st false start in
    let b := adjust (Z.of_nat len) st true stop in
    Ok (map (fun k => Z.to_nat (a + Z.of_nat k * st))
            (List.seq 0 (slice_length a b st))).

(** [s[k]] on a string: one character for an integer, the selected
    characters for a slice. *)
Definition getitem (s : str) (k : key) : result str :=
  match k with
  | KInt i => j <- index (List.length s) i ;; Ok [nth j s zero]
  | KSlice start stop step =>
      ps <- positions (List.length s) start stop step ;;
      Ok (map (fun j => nth j s zero) ps)
  end.

(** The elements of [l], numbered from [i], whose number is not in
    [drop]. *)
Fixpoint remove_at {A : Type} (drop : list nat) (i : nat) (l : list A)
    : list A :=
  match l with
  | [] => []
  | a :: l' =>
      if existsb (Nat.eqb i) drop then remove_at drop (S i) l'
      else a :: remove_at drop (S i) l'
  end.

(** [del l[k]] on a list, giving the list left. *)
Definition delitem {A : Type} (l : list A) (k : key) : result (list A) :=
  match k with
  | KInt i => j <- index (List.length l) i ;; Ok (remove_at [j] 0 l)
  | KSlice start stop step =>
      ps <- positions (List.length l) start stop step ;;
      Ok (remove_at ps 0 l)
  end.

End PySlice.

Module Items.

(** [Sequence.__getitem__] *)
Definition getitem (self : Seq.Sequence) (key : PySlice.key)
    : result Seq.Sequence :=
  match Seq.seq self with
  | [] =>
      match key with
      | PySlice.KInt _ => Raise IndexError
      | PySlice.KSlice _ _ _ => Seq.copy self
      end
  | _ :: _ =>
      new_seq <- PySlice.getitem (Seq.seq self) key ;;
      copy <- Seq.copy self ;;
      Ok (Seq.with_seq copy new_seq)
  end.

(** [Sequence.__delitem__]: the instance after the statement; an exception
    leaves it as it was. *)
Definition delitem (self : Seq.Sequence) (key : PySlice.key)
    : result Seq.Sequence :=
  let sequence_list := Seq.seq self in
  sequence_list <- PySlice.delitem sequence_list key ;;
  Ok (Seq.with_seq self sequence_list).

(** [Sequence.__setitem__] for an integer [index], as its docstring types
    it: the value is built and checked first, then put in place of the one
    element, whatever its length.  The instance after the statement. *)
Definition setitem (self : Seq.Sequence) (index : Z) (new_value : str)
    : result Seq.Sequence :=
  let sequence_list := Seq.seq self in
  value <- Seq.init (Seq.cls self) new_value (Seq.alphabet self) false
             "N"%string None ;;
  j <- PySlice.index (List.length sequence_list) index ;;
  Ok (Seq.with_seq self
        (firstn j sequence_list ++ Seq.to_str value
         ++ skipn (S j) sequence_list)).

(** [Sequence.__ne__] against another sequence; [__eq__] raises no
    [TypeError] there. *)
Definition ne (self other : Seq.Sequence) : bool :=
  negb (Seq.eq self other).

(** [Sequence.__repr__] *)
Definition repr (self : Seq.Sequence) : result str :=
  let display_bases := 40%Z in
  if (List.length (Seq.seq self) <? 90)%nat then Ok (Seq.seq self)
  else
    head <- PySlice.getitem (Seq.seq self)
              (PySlice.KSlice None (Some display_bases) None) ;;
    tail <- PySlice.getitem (Seq.seq self)
              (PySlice.KSlice (Some (- display_bases)%Z) None None) ;;
    Ok (head ++ " ... "%string ++ tail).

End Items.

(** ** Features *)

Module Feat.

Record Feature : Type := mkFeature {
  name : str;
  start : Z;
  stop : Z;
  modified : bool;
  gene : str;
  locus_tag : str;
  qualifiers : list (str * str);
  strand : Z;
  gaps : list (Z * Z);
  feature_type : str
}.

Definition str_eqb (a b : str) : bool :=
  if list_eq_dec ascii_dec a b then true else false.

(** Equality of two coordinate pairs, then of two lists of them *)
Definition gap_eqb (p q : Z * Z) : bool :=
  ((fst p =? fst q) && (snd p =? snd q))%Z.

Fixpoint gaps_eqb (a b : list (Z * Z)) : bool :=
  match a, b with
  | [], [] => true
  | p :: a', q :: b' => gap_eqb p q && gaps_eqb a' b'
  | _, _ => false
  end.

Section Kinds.

(** [featurenames], imported from [coral.sequence.genbank]: the
    recognised feature types. *)
Variable featurenames : list str.

(** [Feature.__init__] *)
Definition init (name : str) (start stop : Z) (feature_type : str)
    (gene locus_tag : str) (qualifiers : option (list (str * str)))
    (strand : Z) (gaps : option (list (Z * Z))) : result Feature :=
  if existsb (str_eqb feature_type) featurenames then
    Ok {| name := name; start := start; stop := stop;
          modified := false; gene := gene; locus_tag := locus_tag;
          qualifiers := match qualifiers with
                        | None => []
                        | Some q => q
                        end;
          strand := strand;
          gaps := match gaps with None => [] | Some g => g end;
          feature_type := feature_type |}
  else Raise ValueError.

(** [Feature.copy] *)
Definition copy (self : Feature) : result Feature :=
  init (name self) (start self) (stop self) (feature_type self)
       (gene self) (locus_tag self) (Some (qualifiers self))
       (strand self) None.

End Kinds.

(** [Feature.move] *)
Definition move (self : Feature) (bases : Z) : Feature :=
  {| name := name self; start := start self + bases;
     stop := stop self + bases; modified := modified self;
     gene := gene self; locus_tag := locus_tag self;
     qualifiers := qualifiers self; strand := strand self;
     gaps := gaps self; feature_type := feature_type self |}.

(** [Feature.__eq__] *)
Definition eq (self other : Feature) : bool :=
  if negb (str_eqb (name self) (name other)) then false
  else if negb (str_eqb (feature_type self) (feature_type other))
  then false
  else if negb (start self =? start other)%Z then false
  else if negb (stop self =? stop other)%Z then false
  else if negb (strand self =? strand other)%Z then false
  else if negb (gaps_eqb (gaps self) (gaps other)) then false
  else true.

(** [Feature.__ne__] *)
Definition ne (self other : Feature) : bool :=
  if negb (eq self other) then true else false.

End Feat.

(** ** Annealing *)

Module Anneal.



Section Engine.

(** The complement mapping of the alphabet and the pluggable
    [compute_tm(sequence, parameter_set)], both external to the core. *)
Variable complement : ascii -> ascii.
Variable tm : list ascii -> Q.





End Engine.

End Anneal.

(** ** Vocabulary of the statements *)

Module Spec.

(** A pattern character [a] against a sequence character [c], when [w] is
    the wildcard: the wildcard stands for any character (of a line, as
    [.] does), any other character for itself. *)
Definition wild (w a c : ascii) : Prop :=
  if Ascii.eqb a w then c <> "010"%char else a = c.

(** The pattern [q] lies on the sequence [s] from offset [i] onwards,
    without running over the end of [s]. *)
Definition occurs_at (w : ascii) (q s : list ascii) (i : nat) : Prop :=
  i + List.length q <= List.length s /\
  forall k, k < List.length q ->
            wild w (nth k q zero) (nth (i + k) s zero).

(** The same on the ring: position [i + k] is taken modulo the length. *)
Definition occurs_on_ring (w : ascii) (q s : list ascii) (i : nat)
    : Prop :=
  i < List.length s /\
  forall k, k < List.length q ->
            wild w (nth k q zero)
                 (nth ((i + k) mod List.length s) s zero).

(** What a pattern character becomes once the wildcard [w] has been
    replaced by [.] and the pattern parsed. *)
Definition atom_of (w c : ascii) : Re.atom :=
  if Ascii.eqb c w then Re.Dot else Re.Lit c.

(** [s] written [n] times *)
Definition rep (s : list ascii) (n : nat) : list ascii :=
  List.concat (repeat s n).

(** [y] is of the class of [x] and carries its alphabet and wildcard. *)
Definition same_meta (x y : Seq.Sequence) : Prop :=
  Seq.cls y = Seq.cls x /\
  Seq.alphabet y = Seq.alphabet x /\
  Seq.any_char y = Seq.any_char x.

(** The binary digits of a positive number as integers, most significant
    first, and the number that a list of digits stands for when read from
    the least significant one. *)
Fixpoint bits (p : positive) : list Z :=
  match p with
  | xH => [1%Z]
  | xO q => bits q ++ [0%Z]
  | xI q => bits q ++ [1%Z]
  end.

Fixpoint bits_value (lsb_first : list Z) : nat :=
  match lsb_first with
  | [] => 0
  | b :: r => (if (b =? 0)%Z then 0 else 1) + 2 * bits_value r
  end.

(** The place in a string of length [len] that a slice bound [k] stands
    for when the step is positive: counted from the end if negative, and
    brought back into [0..len]. *)
Definition cut (len : nat) (k : Z) : nat :=
  Z.to_nat (Z.max 0 (Z.min (Z.of_nat len)
                       (if (k <? 0)%Z then k + Z.of_nat len else k))).

(** Every residue of [x] is a symbol of the alphabet [a] or the lower-case
    form of one: what [__init__] checks. *)
Definition valid_in (a : Seq.Alphabet) (s : list ascii) : Prop :=
  Forall (fun c => In c (Seq.symbols a ++ PyStr.lower (Seq.symbols a))) s.

(** Operands of [*] that are no integers: a finite float, [None], a
    sequence. *)
Definition non_integer (n : Seq.pyval) : Prop :=
  match n with
  | Seq.PyFloat (Finite _) | Seq.PyNone | Seq.PySeq _ => True
  | _ => False
  end.

End Spec.

(** * Properties *)

(** ** Characters and strings *)

Ltac ascii_cases c :=
  destruct c as [[] [] [] [] [] [] [] []]; vm_compute; try reflexivity;
  try discriminate; auto.

Lemma upper_char_fixes (c : ascii) :
  PyStr.is_lower c = false -> PyStr.upper_char c = c.
Proof. unfold PyStr.upper_char. now intros ->. Qed.

Lemma upper_lower_char (c : ascii) :
  PyStr.is_lower c = false -> PyStr.upper_char (PyStr.lower_char c) = c.
Proof. ascii_cases c. Qed.

Lemma lower_upper_char (c : ascii) :
  PyStr.is_lower c = true -> PyStr.lower_char (PyStr.upper_char c) = c.
Proof. ascii_cases c. Qed.

Lemma upper_char_not_lower (c : ascii) :
  PyStr.is_lower (PyStr.upper_char c) = false.
Proof. ascii_cases c. Qed.

Lemma lower_char_fixes (c : ascii) :
  PyStr.is_lower (PyStr.lower_char c) = false -> PyStr.lower_char c = c.
Proof. ascii_cases c. Qed.

Lemma upper_char_idem (c : ascii) :
  PyStr.upper_char (PyStr.upper_char c) = PyStr.upper_char c.
Proof. apply upper_char_fixes, upper_char_not_lower. Qed.

Lemma mem_In (c : ascii) (s : list ascii) :
  PyStr.mem c s = true <-> In c s.
Proof.
  unfold PyStr.mem. rewrite existsb_exists. split.
  - intros [x [Hx He]]. apply Ascii.eqb_eq in He. now subst.
  - intros H. exists c. split; [assumption | apply Ascii.eqb_refl].
Qed.

Lemma upper_length (s : list ascii) :
  List.length (PyStr.upper s) = List.length s.
Proof. apply length_map. Qed.

Lemma upper_lower_char_any (c : ascii) :
  PyStr.upper_char (PyStr.lower_char c) = PyStr.upper_char c.
Proof. ascii_cases c. Qed.

(** An upper-cased character found among the symbols and their lower-case
    forms is one of the symbols. *)
Lemma upper_in_alphabet (symbols : list ascii) (c : ascii) :
  In (PyStr.upper_char c) (symbols ++ PyStr.lower symbols) ->
  In (PyStr.upper_char c) symbols.
Proof.
  unfold PyStr.lower. rewrite in_app_iff, in_map_iff.
  intros [H | [x [Hx Hin]]]; [assumption |].
  assert (Hl : PyStr.lower_char x = x).
  { apply lower_char_fixes. rewrite Hx. apply upper_char_not_lower. }
  rewrite <- Hx, Hl. assumption.
Qed.

(** For an alphabet that holds the upper-case form of each of its symbols,
    a character is a symbol or the lower-case form of one exactly when its
    upper-case form is. *)
Lemma valid_char_upper (symbols : list ascii) (c : ascii) :
  (forall x, In x symbols -> In (PyStr.upper_char x) symbols) ->
  (In c symbols \/ In c (PyStr.lower symbols)) <->
  In (PyStr.upper_char c) (symbols ++ PyStr.lower symbols).
Proof.
  intros Hup. split.
  - unfold PyStr.lower. rewrite in_app_iff, !in_map_iff.
    intros [H | [x [Hx Hin]]].
    + left. now apply Hup.
    + left. subst c. rewrite upper_lower_char_any. now apply Hup.
  - intros H. apply upper_in_alphabet in H.
    destruct (PyStr.is_lower c) eqn:Hc.
    + right. unfold PyStr.lower. apply in_map_iff.
      exists (PyStr.upper_char c). split; [| assumption].
      now apply lower_upper_char.
    + left. now rewrite upper_char_fixes in H.
Qed.

(** ** Construction, copy *)

Lemma search_not_in_spec (cs s : list ascii) :
  cs <> [] ->
  Re.search_not_in cs s = Ok (negb (forallb (fun c => PyStr.mem c cs) s)).
Proof.
  intros Hcs. destruct cs as [| c0 cs']; [contradiction |].
  unfold Re.search_not_in. f_equal.
  induction s as [| c s IH]; cbn [existsb forallb]; [reflexivity |].
  rewrite IH. now destruct (PyStr.mem c (c0 :: cs')), (forallb _ s).
Qed.

(** What [__init__] does with checks on, for an alphabet that has symbols. *)
Lemma init_checked (c : string) (s : list ascii) (a : Seq.Alphabet)
    (any_char : list ascii) (name : option (list ascii)) :
  Seq.symbols a <> [] ->
  Seq.init c s a false any_char name =
  if forallb (fun x => PyStr.mem x
                (Seq.symbols a ++ PyStr.lower (Seq.symbols a)))
             (PyStr.upper s)
  then Ok (Seq.mkSequence c (PyStr.upper s) a any_char
             match name with None => [] | Some n => n end)
  else Raise AlphabetError.
Proof.
  intros Hne. unfold Seq.init. simpl negb. cbv iota.
  rewrite search_not_in_spec.
  - cbn [bind]. now destruct (forallb _ _).
  - destruct (Seq.symbols a); [contradiction | discriminate].
Qed.

Lemma forallb_upper_valid (symbols s : list ascii) :
  (forall x, In x symbols -> In (PyStr.upper_char x) symbols) ->
  forallb (fun x => PyStr.mem x (symbols ++ PyStr.lower symbols))
          (PyStr.upper s) = true <->
  Forall (fun c => In c symbols \/ In c (PyStr.lower symbols)) s.
Proof.
  intros Hup. unfold PyStr.upper.
  rewrite forallb_forall, Forall_forall. split.
  - intros H c Hc. apply valid_char_upper; [assumption |].
    apply mem_In, H, in_map, Hc.
  - intros H x Hx. apply in_map_iff in Hx. destruct Hx as [c [<- Hc]].
    apply mem_In, valid_char_upper; auto.
Qed.

(** C4 (as amended): whenever construction from a raw string [s] succeeds,
    the string of the sequence built is [s.upper()], for every alphabet.
    For an alphabet with at least one symbol that holds the upper-case form
    of each of its symbols (an alphabet of upper-case symbols, or one that
    lists both cases), construction succeeds exactly when every character
    of [s] is a symbol of the alphabet or the lower-case form of one, and
    raises [AlphabetError] otherwise.  The condition on the alphabet cannot
    be dropped: an alphabet with symbols that lacks the upper-case form of
    one of them refuses some string made of its own symbols. *)
Theorem init_validates_raw_string (c : string) (s : list ascii)
    (a : Seq.Alphabet) (any_char : list ascii) (name : option (list ascii)) :
  let valid (t : list ascii) :=
    Forall (fun x => In x (Seq.symbols a) \/
                     In x (PyStr.lower (Seq.symbols a))) t in
  let closed :=
    forall x, In x (Seq.symbols a) ->
              In (PyStr.upper_char x) (Seq.symbols a) in
  (forall x, Seq.init c s a false any_char name = Ok x ->
             Seq.to_str x = PyStr.upper s) /\
  (Seq.symbols a <> [] -> closed ->
   (valid s <-> exists x, Seq.init c s a false any_char name = Ok x) /\
   (~ valid s ->
    Seq.init c s a false any_char name = Raise AlphabetError)) /\
  (Seq.symbols a <> [] -> ~ closed ->
   exists t,
     valid t /\ Seq.init c t a false any_char name = Raise AlphabetError).
Proof.
  intros valid closed. split; [| split].
  - intros x. unfold Seq.init. cbn [negb].
    destruct (Re.search_not_in _ (PyStr.upper s)) as [[|] | e |];
      cbn [bind]; try discriminate.
    intros H. inversion H. reflexivity.
  - intros Hne Hup. rewrite (init_checked _ _ _ _ _ Hne).
    pose proof (forallb_upper_valid (Seq.symbols a) s Hup) as Hv.
    fold (valid s) in Hv.
    destruct (forallb _ (PyStr.upper s)).
    + split; [split |].
      * intros _. eexists. reflexivity.
      * intros _. now apply Hv.
      * intros Hn. exfalso. apply Hn. now apply Hv.
    + split; [split |].
      * intros H. apply Hv in H. discriminate.
      * intros [x Hx]. discriminate.
      * reflexivity.
  - intros Hne Hnot.
    assert (Hex : Exists (fun x => ~ In (PyStr.upper_char x) (Seq.symbols a))
                    (Seq.symbols a)).
    { apply neg_Forall_Exists_neg.
      - intros x. apply (In_dec ascii_dec).
      - intros Hall. apply Hnot. intros x Hx.
        rewrite Forall_forall in Hall. now apply Hall. }
    apply Exists_exists in Hex. destruct Hex as [x [Hx Hn]].
    exists [x]. split.
    + constructor; [now left | constructor].
    + rewrite (init_checked _ _ _ _ _ Hne).
      cbn [PyStr.upper map forallb].
      destruct (PyStr.mem (PyStr.upper_char x) _) eqn:Hm;
        [| reflexivity].
      exfalso. apply Hn. apply mem_In in Hm.
      now apply upper_in_alphabet in Hm.
Qed.

Lemma init_validates_raw_string_witness :
  let dna := Seq.mkAlphabet "ATGCNatgcn"%string None in
  Seq.symbols dna <> [] /\
  (forall x, In x (Seq.symbols dna) ->
             In (PyStr.upper_char x) (Seq.symbols dna)) /\
  Forall (fun x => In x (Seq.symbols dna) \/
                   In x (PyStr.lower (Seq.symbols dna)))
         (list_ascii_of_string "atgNc").
Proof.
  intros dna.
  assert (H1 : Seq.symbols dna <> []) by discriminate.
  assert (H2 : forall x, In x (Seq.symbols dna) ->
                         In (PyStr.upper_char x) (Seq.symbols dna)).
  { intros x Hx. apply mem_In. simpl in Hx.
    repeat (destruct Hx as [<- | Hx]; [reflexivity |]). contradiction. }
  split; [exact H1 | split; [exact H2 |]].
  apply (proj2 (proj1 (proj1 (proj2
           (init_validates_raw_string "DNA" "atgNc"%string dna
              "N"%string None)) H1 H2))).
  eexists. reflexivity.
Defined.

(** The two inputs at which construction departs from "succeeds exactly when
    every character of [s] is a symbol or the lower-case form of one": an
    alphabet without symbols, where even the empty string is refused, and by
    an error of [re]; and an alphabet with a lower-case symbol, which the
    upper-cased input no longer matches. *)
Lemma init_alphabet_counterexample :
  (Forall (fun x : ascii => In x [] \/ In x (PyStr.lower [])) [] /\
   Seq.init "Sequence" [] (Seq.mkAlphabet [] None) false "N"%string None
   = Raise ReError) /\
  (Forall (fun x => In x (list_ascii_of_string "a") \/
                    In x (PyStr.lower "a"%string)) "a"%string /\
   Seq.init "Sequence" "a"%string (Seq.mkAlphabet "a"%string None) false
            "N"%string None
   = Raise AlphabetError).
Proof.
  split; split; try reflexivity.
  - constructor.
  - constructor; [| constructor]. left. simpl. tauto.
Qed.

(** C5 (as amended): [copy] returns a new sequence of the same class with
    the same residues, alphabet and wildcard character, without any check of
    the residues (it succeeds for every instance, valid or not, and does not
    change the case); the name of the copy is the empty string. *)
Theorem copy_keeps_all_but_name (x : Seq.Sequence) :
  exists y,
    Seq.copy x = Ok y /\
    Seq.cls y = Seq.cls x /\
    Seq.seq y = Seq.seq x /\
    Seq.alphabet y = Seq.alphabet x /\
    Seq.any_char y = Seq.any_char x /\
    Seq.name y = [].
Proof.
  eexists. unfold Seq.copy, Seq.init. cbn [negb bind].
  repeat split; reflexivity.
Qed.

(** A named sequence and its copy: the name is gone. *)
Lemma copy_name_counterexample :
  let x := Seq.mkSequence "Sequence" "ATG"%string
             (Seq.mkAlphabet "ATGC"%string None) "N"%string
             "insert"%string in
  let y := Seq.mkSequence "Sequence" "ATG"%string
             (Seq.mkAlphabet "ATGC"%string None) "N"%string [] in
  Seq.copy x = Ok y /\ Seq.name y <> Seq.name x.
Proof. split; [reflexivity | discriminate]. Qed.

(** ** Features *)

Lemma str_eqb_eq (a b : list ascii) : Feat.str_eqb a b = true <-> a = b.
Proof.
  unfold Feat.str_eqb. destruct (list_eq_dec ascii_dec a b); split;
    congruence.
Qed.

Lemma gap_eqb_eq (p q : Z * Z) : Feat.gap_eqb p q = true <-> p = q.
Proof.
  destruct p as [p1 p2], q as [q1 q2]. unfold Feat.gap_eqb. simpl.
  rewrite andb_true_iff, !Z.eqb_eq. split.
  - intros [-> ->]. reflexivity.
  - intros H. inversion H. auto.
Qed.

Lemma gaps_eqb_eq (a b : list (Z * Z)) : Feat.gaps_eqb a b = true <-> a = b.
Proof.
  revert b. induction a as [| p a IH]; intros [| q b]; simpl;
    try (split; [discriminate | congruence]); [tauto |].
  rewrite andb_true_iff, gap_eqb_eq, IH. split.
  - intros [-> ->]. reflexivity.
  - intros H. inversion H. auto.
Qed.

Lemma feature_eq_iff (f g : Feat.Feature) :
  Feat.eq f g = true <->
  Feat.name f = Feat.name g /\
  Feat.feature_type f = Feat.feature_type g /\
  Feat.start f = Feat.start g /\
  Feat.stop f = Feat.stop g /\
  Feat.strand f = Feat.strand g /\
  Feat.gaps f = Feat.gaps g.
Proof.
  unfold Feat.eq.
  rewrite <- !str_eqb_eq, <- !Z.eqb_eq, <- gaps_eqb_eq.
  destruct (Feat.str_eqb (Feat.name f) (Feat.name g)),
    (Feat.str_eqb (Feat.feature_type f) (Feat.feature_type g)),
    (Feat.start f =? Feat.start g)%Z, (Feat.stop f =? Feat.stop g)%Z,
    (Feat.strand f =? Feat.strand g)%Z,
    (Feat.gaps_eqb (Feat.gaps f) (Feat.gaps g)); simpl;
    intuition discriminate.
Qed.

(** C8: two features are equal exactly when [name], [feature_type],
    [start], [stop], [strand] and [gaps] agree ([qualifiers], [gene],
    [locus_tag] play no part); equality is reflexive and symmetric, and
    [!=] is its negation. *)
Theorem feature_eq_structural (f g : Feat.Feature) :
  (Feat.eq f g = true <->
   Feat.name f = Feat.name g /\
   Feat.feature_type f = Feat.feature_type g /\
   Feat.start f = Feat.start g /\
   Feat.stop f = Feat.stop g /\
   Feat.strand f = Feat.strand g /\
   Feat.gaps f = Feat.gaps g) /\
  Feat.eq f f = true /\
  Feat.eq f g = Feat.eq g f /\
  Feat.ne f g = negb (Feat.eq f g).
Proof.
  split; [apply feature_eq_iff |]. split; [| split].
  - apply feature_eq_iff. repeat split.
  - destruct (Feat.eq f g) eqn:Hfg, (Feat.eq g f) eqn:Hgf; try reflexivity.
    + apply feature_eq_iff in Hfg. rewrite <- Hgf. symmetry.
      apply feature_eq_iff. intuition congruence.
    + apply feature_eq_iff in Hgf. rewrite <- Hfg.
      apply feature_eq_iff. intuition congruence.
  - unfold Feat.ne. now destruct (Feat.eq f g).
Qed.

Lemma featurenames_mem (featurenames : list (list ascii)) (t : list ascii) :
  existsb (Feat.str_eqb t) featurenames = true <-> In t featurenames.
Proof.
  rewrite existsb_exists. split.
  - intros [x [Hx He]]. apply str_eqb_eq in He. now subst.
  - intros H. exists t. split; [assumption | now apply str_eqb_eq].
Qed.

(** C10: the copy of a feature (of a recognised type, as every constructed
    feature is) has no gaps and is not flagged as modified, whatever the
    gaps and the flag of the original; so a feature with gaps is not equal
    to its copy. *)
Theorem feature_copy_drops_gaps (featurenames : list (list ascii))
    (f : Feat.Feature) :
  In (Feat.feature_type f) featurenames ->
  exists g,
    Feat.copy featurenames f = Ok g /\
    Feat.gaps g = [] /\
    Feat.modified g = false /\
    (Feat.gaps f <> [] -> Feat.eq g f = false /\ Feat.ne g f = true).
Proof.
  intros Hin. apply featurenames_mem in Hin.
  unfold Feat.copy, Feat.init. rewrite Hin. eexists.
  split; [reflexivity |]. cbn [Feat.gaps Feat.modified].
  split; [reflexivity |]. split; [reflexivity |].
  intros Hg.
  assert (He : Feat.eq
                 {| Feat.name := Feat.name f; Feat.start := Feat.start f;
                    Feat.stop := Feat.stop f; Feat.modified := false;
                    Feat.gene := Feat.gene f;
                    Feat.locus_tag := Feat.locus_tag f;
                    Feat.qualifiers := Feat.qualifiers f;
                    Feat.strand := Feat.strand f; Feat.gaps := [];
                    Feat.feature_type := Feat.feature_type f |} f = false).
  { destruct (Feat.eq _ f) eqn:He; [| reflexivity].
    apply feature_eq_iff in He. cbn in He. exfalso. apply Hg.
    symmetry. apply He. }
  split; [exact He |]. unfold Feat.ne. now rewrite He.
Qed.

Lemma feature_copy_drops_gaps_witness :
  let kinds := [list_ascii_of_string "CDS";
                list_ascii_of_string "misc_feature"] in
  let f := Feat.mkFeature "lacZ"%string 10 250 true "lacZ"%string
             "b0344"%string [] 1 [(40, 60)%Z] "CDS"%string in
  In (Feat.feature_type f) kinds /\
  exists g,
    Feat.copy kinds f = Ok g /\
    Feat.gaps g = [] /\
    Feat.modified g = false /\
    (Feat.gaps f <> [] -> Feat.eq g f = false /\ Feat.ne g f = true).
Proof.
  intros kinds f.
  assert (H : In (Feat.feature_type f) kinds) by (simpl; tauto).
  split; [exact H | exact (feature_copy_drops_gaps kinds f H)].
Defined.

(** ** Pattern search *)

Lemma replace_one_char (w : ascii) (q : list ascii) :
  PyStr.replace q [w] "."%string =
  map (fun c => if Ascii.eqb c w then "."%char else c) q.
Proof.
  unfold PyStr.replace. induction q as [| c q IH]; [reflexivity |].
  cbn [PyStr.replace_from PyStr.startswith List.length Nat.sub map].
  rewrite Ascii.eqb_sym, andb_true_r.
  destruct (Ascii.eqb c w); simpl; now rewrite <- IH.
Qed.

Lemma special_dot (c : ascii) : Re.special c = false -> c <> "."%char.
Proof. intros H ->. discriminate. Qed.

Lemma parse_translated (w : ascii) (q : list ascii) :
  (forall c, In c q -> c = w \/ Re.special c = false) ->
  Re.parse (map (fun c => if Ascii.eqb c w then "."%char else c) q) =
  Some (map (Spec.atom_of w) q).
Proof.
  induction q as [| c q IH]; intros H; [reflexivity |].
  cbn [map Re.parse]. rewrite IH by (intros; apply H; now right).
  assert (Ha : Spec.atom_of w c =
               if Ascii.eqb c w then Re.Dot else Re.Lit c) by reflexivity.
  rewrite Ha. clear Ha.
  destruct (Ascii.eqb c w) eqn:Hc; [reflexivity |].
  destruct (H c (or_introl eq_refl)) as [-> | Hs].
  - now rewrite Ascii.eqb_refl in Hc.
  - rewrite Hs. apply special_dot in Hs.
    apply Ascii.eqb_neq in Hs. now rewrite Hs.
Qed.

Lemma atom_matches_wild (w a c : ascii) :
  Re.atom_matches (Spec.atom_of w a) c = true <-> Spec.wild w a c.
Proof.
  unfold Spec.atom_of, Spec.wild. destruct (Ascii.eqb a w); simpl.
  - rewrite negb_true_iff. apply Ascii.eqb_neq.
  - apply Ascii.eqb_eq.
Qed.

Lemma match_here_spec (w : ascii) (q t : list ascii) :
  Re.match_here (map (Spec.atom_of w) q) t = true <-> Spec.occurs_at w q t 0.
Proof.
  unfold Spec.occurs_at. revert t.
  induction q as [| a q IH]; intros t.
  - simpl. split; [intros _ | reflexivity]. split; [lia | intros; lia].
  - destruct t as [| c t]; simpl.
    + split; [discriminate | intros [H _]; lia].
    + rewrite andb_true_iff, atom_matches_wild, IH. simpl. split.
      * intros [Hw [Hl Hk]]. split; [lia |].
        intros [| k] Hlt; [assumption | apply Hk; lia].
      * intros [Hl Hk]. split; [apply (Hk 0); lia |].
        split; [lia |]. intros k Hlt. apply (Hk (S k)). lia.
Qed.

Lemma occurs_at_skipn (w : ascii) (q s : list ascii) (d : nat) :
  d <= List.length s ->
  Spec.occurs_at w q (skipn d s) 0 <-> Spec.occurs_at w q s d.
Proof.
  intros Hd. unfold Spec.occurs_at. rewrite length_skipn. simpl.
  split; intros [Hl Hk]; (split; [lia |]); intros k Hlt.
  - specialize (Hk k Hlt). now rewrite nth_skipn in Hk.
  - rewrite nth_skipn. now apply Hk.
Qed.

Lemma lookahead_starts_In (r : list Re.atom) (s : list ascii) (i j : nat) :
  In j (Re.lookahead_starts r i s) <->
  exists d, j = i + d /\ d <= List.length s /\
            Re.match_here r (skipn d s) = true.
Proof.
  revert i. induction s as [| c s IH]; intros i.
  - cbn [Re.lookahead_starts]. rewrite app_nil_r. split.
    + destruct (Re.match_here r []) eqn:Hm; [| contradiction].
      intros [<- | []]. exists 0. split; [lia |]. split; [lia | exact Hm].
    + intros [d [-> [Hd Hm]]]. assert (d = 0) by (simpl in Hd; lia).
      subst d. simpl in Hm. rewrite Hm. left. lia.
  - cbn [Re.lookahead_starts]. rewrite in_app_iff, IH. split.
    + intros [H | [d [-> [Hd Hm]]]].
      * destruct (Re.match_here r (c :: s)) eqn:Hm; [| contradiction].
        destruct H as [<- | []]. exists 0.
        split; [lia |]. split; [simpl; lia | exact Hm].
      * exists (S d). split; [lia |]. split; [simpl; lia | exact Hm].
    + intros [[| d] [-> [Hd Hm]]].
      * left. simpl in Hm. rewrite Hm. left. lia.
      * right. exists d. split; [lia |].
        split; [simpl in Hd; lia | exact Hm].
Qed.

Lemma lookahead_starts_sorted (r : list Re.atom) (s : list ascii) (i : nat) :
  StronglySorted lt (Re.lookahead_starts r i s).
Proof.
  revert i. induction s as [| c s IH]; intros i; cbn [Re.lookahead_starts].
  - rewrite app_nil_r. destruct (Re.match_here r []); repeat constructor.
  - destruct (Re.match_here r (c :: s)); simpl; [| apply IH].
    constructor; [apply IH |]. apply Forall_forall. intros j Hj.
    apply lookahead_starts_In in Hj. destruct Hj as [d [-> _]]. lia.
Qed.

Lemma mapM_py_mod (n : nat) (l : list nat) :
  Forall (fun i => i < n) l ->
  Seq.mapM (fun index => Seq.py_mod (Z.of_nat index) (Z.of_nat n)) l =
  Ok (map Z.of_nat l).
Proof.
  induction 1 as [| i l Hi Hl IH]; [reflexivity |].
  cbn [Seq.mapM map]. rewrite IH. unfold Seq.py_mod.
  destruct (Z.of_nat n =? 0)%Z eqn:Hz; [apply Z.eqb_eq in Hz; lia |].
  rewrite Z.mod_small by lia. reflexivity.
Qed.

Lemma sorted_of_nat (l : list nat) :
  StronglySorted lt l -> StronglySorted Z.lt (map Z.of_nat l).
Proof.
  induction 1 as [| i l Hs IH Hall]; simpl; constructor; [assumption |].
  rewrite Forall_map. eapply Forall_impl; [| exact Hall].
  intros j Hj. simpl. lia.
Qed.

Lemma mapM_py_mod_pos (n : nat) (l : list nat) :
  0 < n ->
  Seq.mapM (fun index => Seq.py_mod (Z.of_nat index) (Z.of_nat n)) l =
  Ok (map (fun i => (Z.of_nat i mod Z.of_nat n)%Z) l).
Proof.
  intros Hn. induction l as [| i l IH]; [reflexivity |].
  cbn [Seq.mapM map]. rewrite IH. unfold Seq.py_mod.
  destruct (Z.of_nat n =? 0)%Z eqn:Hz; [apply Z.eqb_eq in Hz; lia |].
  reflexivity.
Qed.

Lemma search_from_spec (r : list Re.atom) (s : list ascii) :
  Re.search_from r s = true <->
  exists d, d <= List.length s /\ Re.match_here r (skipn d s) = true.
Proof.
  induction s as [| c s IH]; cbn [Re.search_from].
  - rewrite orb_false_r. split.
    + intros H. exists 0. split; [lia | exact H].
    + intros [d [Hd Hm]]. assert (d = 0) by (simpl in Hd; lia).
      subst d. exact Hm.
  - rewrite orb_true_iff, IH. split.
    + intros [H | [d [Hd Hm]]].
      * exists 0. split; [lia | exact H].
      * exists (S d). split; [simpl; lia | exact Hm].
    + intros [[| d] [Hd Hm]].
      * left. exact Hm.
      * right. exists d. split; [simpl in Hd; lia | exact Hm].
Qed.



Lemma lookahead_starts_occurs (w : ascii) (q s : list ascii) (i : nat) :
  In i (Re.lookahead_starts (map (Spec.atom_of w) q) 0 s) <->
  Spec.occurs_at w q s i.
Proof.
  rewrite lookahead_starts_In. split.
  - intros [d [-> [Hd Hm]]]. apply match_here_spec in Hm.
    apply (occurs_at_skipn _ _ _ _ Hd) in Hm. exact Hm.
  - intros H. exists i. split; [reflexivity |].
    assert (Hi : i <= List.length s) by (destruct H; lia).
    split; [exact Hi |]. apply match_here_spec.
    apply (occurs_at_skipn _ _ _ _ Hi). exact H.
Qed.

(** [locate] on a non-empty pattern without special characters: the
    offsets found by the scan, unchanged by the reduction modulo the
    length. *)
Lemma locate_eval (x : Seq.Sequence) (p : list ascii) (w : ascii) :
  Seq.any_char x = [w] ->
  (forall c, In c (PyStr.upper p) -> c = w \/ Re.special c = false) ->
  0 < List.length p ->
  List.length p <= Seq.len x ->
  Seq.locate x p =
  Ok (map Z.of_nat
        (Re.lookahead_starts (map (Spec.atom_of w) (PyStr.upper p)) 0
           (Seq.seq x))).
Proof.
  intros Hw Hplain Hpos Hlen. unfold Seq.locate.
  destruct (Seq.len x <? List.length p)%nat eqn:Hlt;
    [apply Nat.ltb_lt in Hlt; lia |].
  rewrite Hw, replace_one_char. unfold Re.finditer_lookahead.
  rewrite (parse_translated w _ Hplain). cbn [bind].
  apply mapM_py_mod. apply Forall_forall. intros i Hi.
  apply lookahead_starts_occurs in Hi. destruct Hi as [Hi _].
  rewrite upper_length in Hi. unfold Seq.len. lia.
Qed.

(** C1 (as amended): for a non-empty pattern [p] no longer than the
    sequence, [locate] returns, in ascending order, exactly the offsets [i]
    with [i + len(p) <= len(s)] at which the upper-cased pattern lies on the
    sequence read as a line, the wildcard standing for any character;
    occurrences may overlap, and the reduction modulo the length changes no
    offset.  (Patterns are taken without characters special to [re].) *)
Theorem locate_linear_occurrences (x : Seq.Sequence) (p : list ascii)
    (w : ascii) :
  Seq.any_char x = [w] ->
  (forall c, In c (PyStr.upper p) -> c = w \/ Re.special c = false) ->
  0 < List.length p ->
  List.length p <= Seq.len x ->
  exists starts,
    Seq.locate x p = Ok (map Z.of_nat starts) /\
    StronglySorted lt starts /\
    StronglySorted Z.lt (map Z.of_nat starts) /\
    forall i, In i starts <->
              Spec.occurs_at w (PyStr.upper p) (Seq.seq x) i.
Proof.
  intros Hw Hplain Hpos Hlen.
  exists (Re.lookahead_starts (map (Spec.atom_of w) (PyStr.upper p)) 0
            (Seq.seq x)).
  split; [now apply locate_eval |].
  split; [apply lookahead_starts_sorted |].
  split; [apply sorted_of_nat, lookahead_starts_sorted |].
  intros i. apply lookahead_starts_occurs.
Qed.

Lemma locate_linear_occurrences_witness :
  let x := Seq.mkSequence "Sequence" "ATGATGA"%string
             (Seq.mkAlphabet "ATGCN"%string None) "N"%string [] in
  exists starts,
    Seq.locate x "anga"%string = Ok (map Z.of_nat starts) /\
    StronglySorted lt starts /\
    StronglySorted Z.lt (map Z.of_nat starts) /\
    forall i, In i starts <->
              Spec.occurs_at "N" (PyStr.upper "anga"%string) (Seq.seq x) i.
Proof.
  intros x.
  apply (locate_linear_occurrences x "anga"%string "N"%char).
  - reflexivity.
  - intros c Hc. simpl in Hc.
    repeat (destruct Hc as [<- | Hc]; [auto |]). contradiction.
  - vm_compute. lia.
  - vm_compute. lia.
Defined.

(** On the ring ["ATGC"] the pattern ["CA"] lies at offset 3, across the
    end, and [locate] does not report it; and for the empty pattern the
    offsets returned are not in ascending order. *)
Lemma locate_ring_counterexample :
  let x := Seq.mkSequence "Sequence" "ATGC"%string
             (Seq.mkAlphabet "ATGCN"%string None) "N"%string [] in
  (Spec.occurs_on_ring "N" "CA"%string (Seq.seq x) 3 /\
   Seq.locate x "CA"%string = Ok []) /\
  Seq.locate x [] = Ok [0; 1; 2; 3; 0]%Z.
Proof.
  intros x. split; [split |]; try reflexivity.
  split; [simpl; lia |].
  intros [| [| k]] Hk; simpl in Hk; try lia; reflexivity.
Qed.




(** ** Concatenation and repetition *)

Lemma rep_add (s : list ascii) (a b : nat) :
  Spec.rep s (a + b) = Spec.rep s a ++ Spec.rep s b.
Proof.
  unfold Spec.rep. now rewrite repeat_app, concat_app.
Qed.

Lemma same_meta_refl (x : Seq.Sequence) : Spec.same_meta x x.
Proof. repeat split. Qed.

Section Operators.

Variable init1 : string -> Seq.pyval -> result Seq.Sequence.

Lemma add_same_class (a b : Seq.Sequence) :
  Seq.cls a = Seq.cls b ->
  Seq.add init1 a (Seq.PySeq b) =
  Ok (Seq.mkSequence (Seq.cls a) (Seq.seq a ++ Seq.seq b)
        (Seq.alphabet a) (Seq.any_char a) []).
Proof.
  intros H. unfold Seq.add, Seq.coerce.
  destruct (String.eqb_spec (Seq.cls a) (Seq.cls b)) as [_ | Hn];
    [reflexivity | contradiction].
Qed.

Lemma add_same_meta (x a b : Seq.Sequence) :
  Spec.same_meta x a -> Spec.same_meta x b ->
  exists r, Seq.add init1 a (Seq.PySeq b) = Ok r /\
            Spec.same_meta x r /\
            Seq.seq r = Seq.seq a ++ Seq.seq b.
Proof.
  intros [Ha1 [Ha2 Ha3]] [Hb1 _]. eexists.
  split; [apply add_same_class; congruence |].
  split; [| reflexivity]. repeat split; assumption.
Qed.

(** The loop, from the state in which the digits [back] have been read: it
    ends normally, and the values yielded, put end to end, are as many
    copies of the sequence as the digits still to read stand for. *)
Lemma decompose_loop_spec (x : Seq.Sequence) (front : list Z) :
  forall (back : list Z) (ns : Seq.Sequence) (m : nat),
    Spec.same_meta x ns ->
    Seq.seq ns = Spec.rep (Seq.seq x) m ->
    exists ys,
      Seq.decompose_loop init1 (List.length front) (front ++ back) ns
        (S (List.length back)) = (ys, Ok tt) /\
      Forall (Spec.same_meta x) ys /\
      List.concat (map Seq.seq ys) =
        Spec.rep (Seq.seq x) (m * Spec.bits_value (rev front)) /\
      List.length ys <= List.length front /\
      (0 < Spec.bits_value (rev front) -> ys <> []).
Proof.
  induction front as [| b front IH] using rev_ind; intros back ns m Hm Hs.
  - exists []. simpl. rewrite Nat.mul_0_r.
    repeat split; [constructor | lia | lia].
  - rewrite length_app, Nat.add_comm. cbn [List.length Nat.add].
    cbn [Seq.decompose_loop].
    assert (Hnth : nth (List.length ((front ++ [b]) ++ back)
                        - S (List.length back))
                       ((front ++ [b]) ++ back) 0%Z = b).
    { rewrite <- app_assoc, length_app. cbn [app List.length].
      replace (List.length front + S (List.length back)
               - S (List.length back)) with (List.length front) by lia.
      now rewrite nth_middle. }
    rewrite Hnth.
    destruct (add_same_meta x ns ns Hm Hm) as [d [Hd [Hdm Hds]]].
    rewrite Hd.
    destruct (IH (b :: back) d (m + m) Hdm) as [ys [Hys [Hall [Hcat [Hlen Hne]]]]].
    { rewrite Hds, Hs. symmetry. apply rep_add. }
    rewrite <- app_assoc. cbn [app].
    replace (S (List.length back) + 1) with (S (List.length (b :: back)))
      by (simpl; lia).
    rewrite Hys. rewrite rev_app_distr. cbn [rev app Spec.bits_value].
    destruct (b =? 0)%Z.
    + exists ys. cbn [app]. split; [reflexivity |].
      split; [assumption |]. split; [| split; [lia |]].
      * rewrite Hcat. f_equal. lia.
      * intros H. apply Hne. lia.
    + exists (ns :: ys). cbn [app]. split; [reflexivity |].
      split; [constructor; assumption |]. split; [| split].
      * cbn [map List.concat]. rewrite Hcat, Hs, <- rep_add. f_equal. lia.
      * simpl. lia.
      * discriminate.
Qed.

Lemma ints_of_app (a b : list ascii) :
  PyStr.ints_of (a ++ b) =
  (da <- PyStr.ints_of a ;; db <- PyStr.ints_of b ;; Ok (da ++ db)).
Proof.
  induction a as [| c a IH]; cbn [app PyStr.ints_of].
  - cbn [bind]. now destruct (PyStr.ints_of b).
  - destruct (PyStr.int_of_char c); cbn [bind]; try reflexivity.
    rewrite IH. destruct (PyStr.ints_of a); cbn [bind]; try reflexivity.
    now destruct (PyStr.ints_of b).
Qed.

Lemma ints_of_bin_digits (p : positive) :
  PyStr.ints_of (PyStr.bin_digits p) = Ok (Spec.bits p).
Proof.
  induction p as [q IH | q IH |]; cbn [PyStr.bin_digits Spec.bits];
    try reflexivity; now rewrite ints_of_app, IH.
Qed.

Lemma bits_value_rev_bits (p : positive) :
  Spec.bits_value (rev (Spec.bits p)) = Pos.to_nat p.
Proof.
  induction p as [q IH | q IH |]; cbn [Spec.bits]; try reflexivity;
    rewrite rev_app_distr; cbn [rev app Spec.bits_value]; rewrite IH.
  - rewrite Pos2Nat.inj_xI. simpl. lia.
  - rewrite Pos2Nat.inj_xO. simpl. lia.
Qed.

Lemma length_bits (p : positive) :
  List.length (Spec.bits p) = Pos.size_nat p.
Proof.
  induction p as [q IH | q IH |]; cbn [Spec.bits Pos.size_nat];
    try reflexivity; rewrite length_app, IH; simpl; lia.
Qed.

(** What the generator yields for a positive [n]: at most one value for
    each binary digit of [n], together [n] copies of the sequence. *)
Lemma decompose_positive (x : Seq.Sequence) (p : positive) :
  exists ys,
    Seq._decompose init1 x (Seq.PyInt (Zpos p)) = (ys, Ok tt) /\
    ys <> [] /\
    Forall (Spec.same_meta x) ys /\
    List.length ys <= Pos.size_nat p /\
    List.concat (map Seq.seq ys) = Spec.rep (Seq.seq x) (Pos.to_nat p).
Proof.
  unfold Seq._decompose. cbn [Seq.py_bin bind PyStr.bin].
  cbn [list_ascii_of_string app skipn]. rewrite ints_of_bin_digits.
  destruct (decompose_loop_spec x (Spec.bits p) [] x 1 (same_meta_refl x))
    as [ys [Hys [Hall [Hcat [Hlen Hne]]]]].
  { unfold Spec.rep. simpl. now rewrite app_nil_r. }
  rewrite app_nil_r in Hys. cbn [List.length] in Hys.
  exists ys. rewrite bits_value_rev_bits, Nat.mul_1_l in *.
  rewrite length_bits in Hlen.
  repeat split; try assumption. apply Hne. apply Pos2Nat.is_pos.
Qed.

Lemma sum_from_sequence (x : Seq.Sequence) (ys : list Seq.Sequence) :
  forall a,
    Spec.same_meta x a ->
    Forall (Spec.same_meta x) ys ->
    exists r,
      Seq.sum_from init1 (Seq.PySeq a) ys = Ok (Seq.PySeq r) /\
      Spec.same_meta x r /\
      Seq.seq r = Seq.seq a ++ List.concat (map Seq.seq ys).
Proof.
  induction ys as [| y ys IH]; intros a Ha Hall.
  - exists a. simpl. rewrite app_nil_r. auto.
  - inversion Hall as [| ? ? Hy Hys]; subst.
    destruct (add_same_meta x a y Ha Hy) as [d [Hd [Hdm Hds]]].
    destruct (IH d Hdm Hys) as [r [Hr [Hrm Hrs]]].
    exists r. cbn [Seq.sum_from Seq.sum_step]. rewrite Hd. cbn [bind].
    split; [exact Hr |]. split; [exact Hrm |].
    rewrite Hrs, Hds. cbn [map List.concat]. now rewrite app_assoc.
Qed.

(** For a positive integer [n], [x * n] is a sequence of the class of [x],
    with its alphabet and wildcard, whose residues are those of [x] written
    [n] times. *)
Lemma mul_positive (x : Seq.Sequence) (p : positive) :
  exists r,
    Seq.mul init1 x (Seq.PyInt (Zpos p)) = Ok (Seq.PySeq r) /\
    Spec.same_meta x r /\
    Seq.seq r = Spec.rep (Seq.seq x) (Pos.to_nat p).
Proof.
  destruct (decompose_positive x p)
    as [ys [Hys [Hne [Hall [_ Hcat]]]]].
  unfold Seq.mul. cbn [Seq.py_int bind Seq.py_ne_int].
  rewrite Z.eqb_refl. cbn [negb]. rewrite Hys.
  unfold Seq.collect. cbn [fst snd bind].
  destruct ys as [| y ys]; [contradiction |].
  inversion Hall as [| ? ? Hy Hrest]; subst.
  destruct (sum_from_sequence x ys y Hy Hrest) as [r [Hr [Hrm Hrs]]].
  exists r. unfold Seq.sum. cbn [Seq.sum_from Seq.sum_step].
  unfold Seq.radd. cbn [Seq.py_eq_zero Z.eqb orb bind].
  split; [exact Hr |]. split; [exact Hrm |].
  rewrite Hrs. exact Hcat.
Qed.

Lemma mul_zero (x : Seq.Sequence) :
  Seq.mul init1 x (Seq.PyInt 0) = Ok (Seq.PyInt 0).
Proof.
  assert (Hb : PyStr.ints_of (skipn 2 (PyStr.bin 0)) = Ok [0%Z])
    by reflexivity.
  unfold Seq.mul, Seq._decompose, Seq.collect.
  cbn [Seq.py_int bind Seq.py_ne_int Z.eqb negb Seq.py_bin].
  rewrite Hb. cbn [List.length Seq.decompose_loop].
  rewrite (add_same_class x x eq_refl). reflexivity.
Qed.

Lemma mul_negative (x : Seq.Sequence) (p : positive) :
  Seq.mul init1 x (Seq.PyInt (Zneg p)) = Raise ValueError /\
  fst (Seq._decompose init1 x (Seq.PyInt (Zneg p))) = [].
Proof.
  unfold Seq.mul, Seq._decompose, Seq.collect.
  cbn [Seq.py_int bind Seq.py_ne_int]. rewrite Z.eqb_refl.
  cbn [negb Seq.py_bin PyStr.bin list_ascii_of_string app skipn].
  cbn [PyStr.ints_of]. split; reflexivity.
Qed.

End Operators.

(** C2: for a positive integer [n], [x * n] is [x] written [n] times, a
    sequence of the class of [x] with its alphabet and wildcard; the
    generator yields at most one value for each binary digit of [n], each
    obtained by doubling.  For [n = 0] nothing is yielded and [sum] returns
    its start value, the integer [0], where the claim (and the docstring of
    [__mul__]) asks for the empty sequence. *)
Theorem mul_by_integer (init1 : string -> Seq.pyval -> result Seq.Sequence)
    (x : Seq.Sequence) :
  (forall p : positive,
     (exists r,
        Seq.mul init1 x (Seq.PyInt (Zpos p)) = Ok (Seq.PySeq r) /\
        Spec.same_meta x r /\
        Seq.seq r = Spec.rep (Seq.seq x) (Pos.to_nat p)) /\
     (exists ys,
        Seq._decompose init1 x (Seq.PyInt (Zpos p)) = (ys, Ok tt) /\
        List.length ys <= Pos.size_nat p)) /\
  Seq.mul init1 x (Seq.PyInt 0) = Ok (Seq.PyInt 0).
Proof.
  split; [| apply mul_zero].
  intros p. split; [apply mul_positive |].
  destruct (decompose_positive init1 x p) as [ys [Hys [_ [_ [Hlen _]]]]].
  exists ys. auto.
Qed.

(** C3 (as amended): multiplying by an operand that is no integer (a finite
    float, whether or not its value is whole, [None], a sequence) raises
    [TypeError]; nothing is yielded before the error, so no partial result
    exists. *)
Theorem mul_non_integer (init1 : string -> Seq.pyval -> result Seq.Sequence)
    (x : Seq.Sequence) (n : Seq.pyval) :
  Spec.non_integer n ->
  Seq.mul init1 x n = Raise TypeError /\
  fst (Seq._decompose init1 x n) = [].
Proof.
  intros H. destruct n as [| z | [q | b |] | s | y]; simpl in H;
    try contradiction; split; try reflexivity.
  unfold Seq.mul. cbn [Seq.py_int bind].
  destruct (Seq.py_ne_int _ _); reflexivity.
Qed.

Lemma mul_non_integer_witness :
  let init1 := fun (_ : string) (_ : Seq.pyval) =>
                 @Raise Seq.Sequence AttributeError in
  let x := Seq.mkSequence "Sequence" "AT"%string
             (Seq.mkAlphabet "ATGC"%string None) "N"%string [] in
  let n := Seq.PyFloat (Finite (5 # 2)) in
  Spec.non_integer n /\
  Seq.mul init1 x n = Raise TypeError /\
  fst (Seq._decompose init1 x n) = [].
Proof.
  intros init1 x n.
  assert (H : Spec.non_integer n) by exact I.
  split; [exact H | exact (mul_non_integer init1 x n H)].
Defined.

(** Multiplication by [-1] fails in [_decompose], on [int('b')], with a
    [ValueError]; so does multiplication by a NaN, in [int(n)]. *)
Lemma mul_minus_one_counterexample :
  let init1 := fun (_ : string) (_ : Seq.pyval) =>
                 @Raise Seq.Sequence AttributeError in
  let x := Seq.mkSequence "Sequence" "AT"%string
             (Seq.mkAlphabet "ATGC"%string None) "N"%string [] in
  Seq.mul init1 x (Seq.PyInt (-1)) = Raise ValueError /\
  Seq.mul init1 x (Seq.PyFloat NaN) = Raise ValueError.
Proof. split; reflexivity. Qed.

Lemma coerce_other_type (init1 : string -> Seq.pyval -> result Seq.Sequence)
    (x : Seq.Sequence) (y : Seq.pyval) :
  Seq.type_differs x y = true ->
  Seq.coerce init1 x y =
  match Seq.construct1 init1 (Seq.cls x) y with
  | Raise AttributeError => Raise TypeError
  | r => r
  end.
Proof.
  intros H. destruct y as [| z | f | s | z]; try reflexivity.
  simpl in H. apply negb_true_iff in H. unfold Seq.coerce.
  now rewrite H.
Qed.

(** C6 (as amended): when the operand is of another type, [x + y] makes
    the one call [type(x)(y)] and depends on the constructors through its
    outcome alone.  For the base class, which cannot be built from one
    argument, [x + y] raises [TypeError].  For any other class: if the
    constructor raises [AttributeError], [x + y] raises [TypeError]; any
    other exception of the constructor comes out of [x + y] unchanged; and
    if the constructor returns [o], the result is of the class of [x], with
    its alphabet and wildcard, and its residues are those of [x] followed
    by those of [o], taken as they are. *)
Theorem add_coerces_once (init1 : string -> Seq.pyval -> result Seq.Sequence)
    (x : Seq.Sequence) (y : Seq.pyval) :
  Seq.type_differs x y = true ->
  (Seq.cls x = "Sequence"%string -> Seq.add init1 x y = Raise TypeError) /\
  (Seq.cls x <> "Sequence"%string ->
   (forall o, init1 (Seq.cls x) y = Ok o ->
              Seq.add init1 x y =
              Ok (Seq.mkSequence (Seq.cls x) (Seq.seq x ++ Seq.seq o)
                    (Seq.alphabet x) (Seq.any_char x) [])) /\
   (init1 (Seq.cls x) y = Raise AttributeError ->
    Seq.add init1 x y = Raise TypeError) /\
   (forall e, e <> AttributeError ->
              init1 (Seq.cls x) y = Raise e ->
              Seq.add init1 x y = Raise e)) /\
  (forall init1' : string -> Seq.pyval -> result Seq.Sequence,
     init1' (Seq.cls x) y = init1 (Seq.cls x) y ->
     Seq.add init1' x y = Seq.add init1 x y).
Proof.
  intros H. split; [| split].
  - intros Hc. unfold Seq.add.
    rewrite (coerce_other_type init1 x y H). unfold Seq.construct1.
    rewrite Hc. reflexivity.
  - intros Hc. apply String.eqb_neq in Hc.
    split; [| split].
    + intros o Ho. unfold Seq.add.
      rewrite (coerce_other_type init1 x y H). unfold Seq.construct1.
      rewrite Hc, Ho. reflexivity.
    + intros He. unfold Seq.add.
      rewrite (coerce_other_type init1 x y H). unfold Seq.construct1.
      rewrite Hc, He. reflexivity.
    + intros e Hne He. unfold Seq.add.
      rewrite (coerce_other_type init1 x y H). unfold Seq.construct1.
      rewrite Hc, He. cbn [bind].
      destruct e; try reflexivity. now contradiction Hne.
  - intros init1' Heq. unfold Seq.add.
    rewrite !(coerce_other_type _ x y H). unfold Seq.construct1.
    now rewrite Heq.
Qed.

Lemma add_coerces_once_witness :
  let dna := Seq.mkAlphabet "ATGC"%string None in
  let init1 := fun (c : string) (v : Seq.pyval) =>
                 match v with
                 | Seq.PyStr s => Ok (Seq.mkSequence c s dna "N"%string [])
                 | _ => Raise AttributeError
                 end in
  let x := Seq.mkSequence "DNA" "ATG"%string dna "N"%string
             "insert"%string in
  Seq.type_differs x (Seq.PyStr "CCxx"%string) = true /\
  Seq.add init1 x (Seq.PyStr "CCxx"%string) =
  Ok (Seq.mkSequence "DNA" "ATGCCxx"%string dna "N"%string []) /\
  Seq.add init1 x Seq.PyNone = Raise TypeError.
Proof.
  intros dna init1 x.
  assert (H : Seq.type_differs x (Seq.PyStr "CCxx"%string) = true)
    by reflexivity.
  assert (Hc : Seq.cls x <> "Sequence"%string) by discriminate.
  split; [exact H |]. split.
  - exact (proj1 (proj1 (proj2
                    (add_coerces_once init1 x (Seq.PyStr "CCxx"%string) H))
                    Hc)
             (Seq.mkSequence "DNA" "CCxx"%string dna "N"%string [])
             eq_refl).
  - exact (proj1 (proj2 (proj1 (proj2
                    (add_coerces_once init1 x Seq.PyNone eq_refl)) Hc))
             eq_refl).
Defined.

(** A constructor that checks its argument, as [Sequence.__init__] does:
    the string ["XYZ"] cannot be made a sequence over ["ATGC"], and
    [x + "XYZ"] raises the [AlphabetError] of the constructor, not a
    [TypeError]. *)
Lemma add_alphabet_error_counterexample :
  let dna := Seq.mkAlphabet "ATGC"%string None in
  let init1 := fun (c : string) (v : Seq.pyval) =>
                 match v with
                 | Seq.PyStr s => Seq.init c s dna false "N"%string None
                 | _ => Raise AttributeError
                 end in
  let x := Seq.mkSequence "DNA" "ATG"%string dna "N"%string [] in
  Seq.type_differs x (Seq.PyStr "XYZ"%string) = true /\
  init1 "DNA"%string (Seq.PyStr "XYZ"%string) = Raise AlphabetError /\
  Seq.add init1 x (Seq.PyStr "XYZ"%string) = Raise AlphabetError /\
  Seq.add init1 x (Seq.PyStr "XYZ"%string) <> Raise TypeError.
Proof.
  split; [reflexivity |]. split; [reflexivity |].
  split; [reflexivity | discriminate].
Qed.

(** ** Annealing *)








(** ** Indexing and slicing *)

Lemma index_inside (len : nat) (i : Z) :
  (- Z.of_nat len <= i < Z.of_nat len)%Z ->
  PySlice.index len i =
  Ok (Z.to_nat (if (i <? 0)%Z then i + Z.of_nat len else i)%Z) /\
  Z.to_nat (if (i <? 0)%Z then i + Z.of_nat len else i)%Z < len.
Proof.
  intros H. unfold PySlice.index.
  destruct (i <? 0)%Z eqn:Hi;
    [apply Z.ltb_lt in Hi | apply Z.ltb_ge in Hi].
  - replace ((i + Z.of_nat len <? 0) || (Z.of_nat len <=? i + Z.of_nat len))%Z
      with false; [split; [reflexivity | lia] |].
    symmetry. apply orb_false_iff. split;
      [apply Z.ltb_ge | apply Z.leb_gt]; lia.
  - replace ((i <? 0) || (Z.of_nat len <=? i))%Z with false;
      [split; [reflexivity | lia] |].
    symmetry. apply orb_false_iff. split;
      [apply Z.ltb_ge | apply Z.leb_gt]; lia.
Qed.

Lemma index_outside (len : nat) (i : Z) :
  (i < - Z.of_nat len \/ Z.of_nat len <= i)%Z ->
  PySlice.index len i = Raise IndexError.
Proof.
  intros H. unfold PySlice.index.
  destruct (i <? 0)%Z eqn:Hi;
    [apply Z.ltb_lt in Hi | apply Z.ltb_ge in Hi].
  - assert (Hn : (i + Z.of_nat len <? 0)%Z = true)
      by (apply Z.ltb_lt; lia).
    now rewrite Hn.
  - assert (Hn : (Z.of_nat len <=? i)%Z = true) by (apply Z.leb_le; lia).
    rewrite Hn. now rewrite orb_true_r.
Qed.

Lemma index_bound (len : nat) (i : Z) (j : nat) :
  PySlice.index len i = Ok j -> j < len.
Proof.
  intros H.
  destruct (Z_lt_ge_dec i (- Z.of_nat len)) as [Hlo | Hlo];
    [rewrite index_outside in H by lia; discriminate |].
  destruct (Z_lt_ge_dec i (Z.of_nat len)) as [Hhi | Hhi];
    [| rewrite index_outside in H by lia; discriminate].
  destruct (index_inside len i) as [He Hb]; [lia |].
  rewrite He in H. inversion H. subst. exact Hb.
Qed.

(** With a positive step the two bounds are adjusted alike, into
    [0..len]. *)
Lemma adjust_forward (len : nat) (is_stop : bool) (k : Z) :
  PySlice.adjust (Z.of_nat len) 1 is_stop (Some k) =
  Z.of_nat (Z.to_nat (Z.max 0 (Z.min (Z.of_nat len)
                                  (if (k <? 0)%Z then k + Z.of_nat len
                                   else k)))).
Proof.
  unfold PySlice.adjust. cbn [Z.ltb Z.compare].
  destruct (k <? 0)%Z eqn:Hk;
    [apply Z.ltb_lt in Hk | apply Z.ltb_ge in Hk].
  - destruct (k + Z.of_nat len <? 0)%Z eqn:Hs;
      [apply Z.ltb_lt in Hs | apply Z.ltb_ge in Hs]; lia.
  - destruct (Z.of_nat len <=? k)%Z eqn:Hs;
      [apply Z.leb_le in Hs | apply Z.leb_gt in Hs]; lia.
Qed.

Lemma skipn_cons_nth {A : Type} (d : A) (l : list A) (a : nat) :
  a < List.length l -> skipn a l = nth a l d :: skipn (S a) l.
Proof.
  revert a. induction l as [| x l IH]; intros a Ha; [simpl in Ha; lia |].
  destruct a as [| a]; [reflexivity |].
  cbn [skipn nth]. rewrite (IH a) by (simpl in Ha; lia). reflexivity.
Qed.

Lemma map_nth_range {A : Type} (d : A) (l : list A) (n : nat) :
  forall a, a + n <= List.length l ->
            map (fun j => nth j l d) (List.seq a n) = firstn n (skipn a l).
Proof.
  induction n as [| n IH]; intros a Ha; [reflexivity |].
  cbn [List.seq map]. rewrite IH by lia.
  rewrite (skipn_cons_nth d l a) by lia. reflexivity.
Qed.

Lemma map_add_seq (a n : nat) :
  forall s, map (fun k => a + k) (List.seq s n) = List.seq (a + s) n.
Proof.
  induction n as [| n IH]; intros s; [reflexivity |].
  cbn [List.seq map]. rewrite IH. now rewrite Nat.add_succ_r.
Qed.

(** A slice without step, between bounds [a] and [b] already in range: the
    characters from [a] up to [b]. *)
Lemma positions_forward (len : nat) (a b : nat) :
  a <= len -> b <= len ->
  map (fun k => Z.to_nat (Z.of_nat a + Z.of_nat k * 1))
      (List.seq 0 (PySlice.slice_length (Z.of_nat a) (Z.of_nat b) 1)) =
  List.seq a (b - a).
Proof.
  intros Ha Hb. unfold PySlice.slice_length. cbn [Z.ltb Z.compare].
  destruct (Z.of_nat a <? Z.of_nat b)%Z eqn:Hab;
    [apply Z.ltb_lt in Hab | apply Z.ltb_ge in Hab].
  - rewrite Z.div_1_r.
    replace (Z.to_nat (Z.of_nat b - Z.of_nat a - 1 + 1)) with (b - a)
      by lia.
    rewrite <- (Nat.add_0_r a) at 2. rewrite <- map_add_seq.
    apply map_ext. intros k. lia.
  - replace (b - a) with 0 by lia. reflexivity.
Qed.

Lemma cut_le (len : nat) (k : Z) : Spec.cut len k <= len.
Proof. unfold Spec.cut. lia. Qed.

Lemma getitem_slice_forward (s : list ascii) (start stop : option Z) :
  let a := match start with
           | None => 0
           | Some k => Spec.cut (List.length s) k
           end in
  let b := match stop with
           | None => List.length s
           | Some k => Spec.cut (List.length s) k
           end in
  PySlice.getitem s (PySlice.KSlice start stop None) =
  Ok (firstn (b - a) (skipn a s)).
Proof.
  intros a b.
  assert (Ha : a <= List.length s)
    by (unfold a; destruct start; [apply cut_le | lia]).
  assert (Hb : b <= List.length s)
    by (unfold b; destruct stop; [apply cut_le | lia]).
  assert (Hza : PySlice.adjust (Z.of_nat (List.length s)) 1 false start
                = Z.of_nat a).
  { unfold a. destruct start as [k |]; [apply adjust_forward |].
    reflexivity. }
  assert (Hzb : PySlice.adjust (Z.of_nat (List.length s)) 1 true stop
                = Z.of_nat b).
  { unfold b. destruct stop as [k |]; [apply adjust_forward |].
    reflexivity. }
  unfold PySlice.getitem, PySlice.positions. cbn [Z.eqb].
  rewrite Hza, Hzb. cbn [bind].
  rewrite (positions_forward (List.length s) a b Ha Hb).
  rewrite map_nth_range by lia. reflexivity.
Qed.

Lemma getitem_nonempty (x : Seq.Sequence) (key : PySlice.key) :
  Seq.seq x <> [] ->
  Items.getitem x key =
  (new_seq <- PySlice.getitem (Seq.seq x) key ;;
   Ok (Seq.mkSequence (Seq.cls x) new_seq (Seq.alphabet x)
         (Seq.any_char x) [])).
Proof.
  intros H. unfold Items.getitem.
  destruct (Seq.seq x) as [| c s] eqn:Hs; [contradiction |].
  destruct (PySlice.getitem (c :: s) key); reflexivity.
Qed.

(** [x[:k]] and [x[k:]], for every integer [k] (negative, or beyond the
    ends), are the two parts of [x]: concatenated again they give the
    residues of [x], in a sequence of its class, alphabet and wildcard. *)
Theorem getitem_split_concat
    (init1 : string -> Seq.pyval -> result Seq.Sequence)
    (x : Seq.Sequence) (k : Z) :
  exists a b r,
    Items.getitem x (PySlice.KSlice None (Some k) None) = Ok a /\
    Items.getitem x (PySlice.KSlice (Some k) None None) = Ok b /\
    Seq.seq a = firstn (Spec.cut (Seq.len x) k) (Seq.seq x) /\
    Seq.seq b = skipn (Spec.cut (Seq.len x) k) (Seq.seq x) /\
    Seq.add init1 a (Seq.PySeq b) = Ok r /\
    Seq.seq r = Seq.seq x /\
    Spec.same_meta x r.
Proof.
  destruct (Seq.seq x) as [| c s] eqn:Hs.
  - exists (Seq.mkSequence (Seq.cls x) [] (Seq.alphabet x)
              (Seq.any_char x) []),
           (Seq.mkSequence (Seq.cls x) [] (Seq.alphabet x)
              (Seq.any_char x) []).
    exists (Seq.mkSequence (Seq.cls x) [] (Seq.alphabet x)
              (Seq.any_char x) []).
    unfold Items.getitem, Seq.copy, Seq.init. rewrite Hs.
    cbn [negb bind]. rewrite firstn_nil, skipn_nil.
    split; [reflexivity |]. split; [reflexivity |].
    split; [reflexivity |]. split; [reflexivity |].
    split; [rewrite add_same_class by reflexivity; reflexivity |].
    split; [reflexivity | repeat split].
  - assert (Hne : Seq.seq x <> []) by (rewrite Hs; discriminate).
    rewrite !(getitem_nonempty x _ Hne), !getitem_slice_forward.
    cbn [bind]. rewrite Nat.sub_0_r. cbn [skipn].
    unfold Seq.len. rewrite <- Hs.
    set (n := Spec.cut (List.length (Seq.seq x)) k).
    assert (Hn : n <= List.length (Seq.seq x)) by apply cut_le.
    eexists. eexists. eexists.
    split; [reflexivity |]. split; [reflexivity |].
    split; [reflexivity |].
    split; [cbn [Seq.seq]; rewrite firstn_all2;
            [reflexivity | rewrite length_skipn; lia] |].
    split; [apply add_same_class; reflexivity |].
    cbn [Seq.seq]. split; [| repeat split].
    rewrite (firstn_all2 (skipn n (Seq.seq x)))
      by (rewrite length_skipn; lia).
    apply firstn_skipn.
Qed.

(** Indexing with an integer: on the empty sequence it is an [IndexError];
    otherwise an index from [-len] to [len - 1] gives the one residue at
    that place (counted from the end when negative) in a new sequence with
    the class, alphabet and wildcard of [x] and no name, and any other
    index is an [IndexError]. *)
Theorem getitem_integer (x : Seq.Sequence) (i : Z) :
  ((- Z.of_nat (Seq.len x) <= i < Z.of_nat (Seq.len x))%Z ->
   Items.getitem x (PySlice.KInt i) =
   Ok (Seq.mkSequence (Seq.cls x)
         [nth (Z.to_nat (if (i <? 0)%Z then i + Z.of_nat (Seq.len x)
                         else i)) (Seq.seq x) zero]
         (Seq.alphabet x) (Seq.any_char x) [])) /\
  ((i < - Z.of_nat (Seq.len x) \/ Z.of_nat (Seq.len x) <= i)%Z ->
   Items.getitem x (PySlice.KInt i) = Raise IndexError).
Proof.
  unfold Seq.len. split; intros H.
  - assert (Hne : Seq.seq x <> []).
    { intros He. rewrite He in H. simpl in H. lia. }
    rewrite (getitem_nonempty x _ Hne). unfold PySlice.getitem.
    destruct (index_inside _ _ H) as [Hi _]. rewrite Hi. reflexivity.
  - unfold Items.getitem.
    destruct (Seq.seq x) as [| c s] eqn:Hs; [reflexivity |].
    unfold PySlice.getitem. rewrite index_outside by exact H.
    reflexivity.
Qed.

Lemma getitem_integer_witness :
  let x := Seq.mkSequence "Sequence" "ATGC"%string
             (Seq.mkAlphabet "ATGCN"%string None) "N"%string
             "insert"%string in
  Items.getitem x (PySlice.KInt (-1)) =
  Ok (Seq.mkSequence "Sequence" "C"%string
        (Seq.mkAlphabet "ATGCN"%string None) "N"%string []) /\
  Items.getitem x (PySlice.KInt 4) = Raise IndexError.
Proof.
  intros x. split.
  - apply (proj1 (getitem_integer x (-1))). cbn. lia.
  - apply (proj2 (getitem_integer x 4)). cbn. lia.
Defined.

Lemma adjust_range_forward (len : nat) (st : Z) (is_stop : bool)
    (v : option Z) :
  (0 < st)%Z ->
  (0 <= PySlice.adjust (Z.of_nat len) st is_stop v <= Z.of_nat len)%Z.
Proof.
  intros Hst. unfold PySlice.adjust.
  assert (Hs : (st <? 0)%Z = false) by (apply Z.ltb_ge; lia).
  rewrite Hs. destruct v as [i |]; [| destruct is_stop; lia].
  destruct (i <? 0)%Z eqn:Hi;
    [apply Z.ltb_lt in Hi | apply Z.ltb_ge in Hi].
  - destruct (i + Z.of_nat len <? 0)%Z eqn:Hj;
      [apply Z.ltb_lt in Hj | apply Z.ltb_ge in Hj]; lia.
  - destruct (Z.of_nat len <=? i)%Z eqn:Hj;
      [apply Z.leb_le in Hj | apply Z.leb_gt in Hj]; lia.
Qed.

Lemma adjust_range_backward (len : nat) (st : Z) (is_stop : bool)
    (v : option Z) :
  (st < 0)%Z ->
  (-1 <= PySlice.adjust (Z.of_nat len) st is_stop v <= Z.of_nat len - 1)%Z.
Proof.
  intros Hst. unfold PySlice.adjust.
  assert (Hs : (st <? 0)%Z = true) by (apply Z.ltb_lt; lia).
  rewrite Hs. destruct v as [i |]; [| destruct is_stop; lia].
  destruct (i <? 0)%Z eqn:Hi;
    [apply Z.ltb_lt in Hi | apply Z.ltb_ge in Hi].
  - destruct (i + Z.of_nat len <? 0)%Z eqn:Hj;
      [apply Z.ltb_lt in Hj | apply Z.ltb_ge in Hj]; lia.
  - destruct (Z.of_nat len <=? i)%Z eqn:Hj;
      [apply Z.leb_le in Hj | apply Z.leb_gt in Hj]; lia.
Qed.

(** Every position that a slice selects lies inside the string. *)
Lemma positions_in_range (len : nat) (start stop step : option Z)
    (ps : list nat) :
  PySlice.positions len start stop step = Ok ps ->
  Forall (fun j => j < len) ps.
Proof.
  unfold PySlice.positions.
  set (st := match step with None => 1%Z | Some z => z end).
  destruct (st =? 0)%Z eqn:Hz; [discriminate |].
  apply Z.eqb_neq in Hz. intros H. inversion H as [Hps]. clear H Hps.
  set (a := PySlice.adjust (Z.of_nat len) st false start).
  set (b := PySlice.adjust (Z.of_nat len) st true stop).
  apply Forall_forall. intros j Hj. apply in_map_iff in Hj.
  destruct Hj as [k [<- Hk]]. apply in_seq in Hk.
  unfold PySlice.slice_length in Hk.
  destruct (Z_lt_ge_dec st 0) as [Hneg | Hpos].
  - pose proof (adjust_range_backward len st false start Hneg) as Ha.
    pose proof (adjust_range_backward len st true stop Hneg) as Hb.
    fold a in Ha. fold b in Hb.
    assert (Hs : (st <? 0)%Z = true) by (apply Z.ltb_lt; lia).
    rewrite Hs in Hk.
    destruct (b <? a)%Z eqn:Hba; [apply Z.ltb_lt in Hba | lia].
    assert (Hq : (Z.of_nat k <= (a - b - 1) / (- st))%Z).
    { assert (0 <= (a - b - 1) / (- st))%Z
        by (apply Z.div_pos; lia). lia. }
    assert (Hm : (- st * ((a - b - 1) / (- st)) <= a - b - 1)%Z)
      by (apply Z.mul_div_le; lia).
    assert (Hkm : (Z.of_nat k * (- st) <= a - b - 1)%Z) by nia.
    assert (0 <= Z.of_nat k * (- st))%Z by nia.
    assert (Z.of_nat k * st = - (Z.of_nat k * (- st)))%Z by lia.
    lia.
  - pose proof (adjust_range_forward len st false start) as Ha.
    pose proof (adjust_range_forward len st true stop) as Hb.
    fold a in Ha. fold b in Hb.
    assert (Hst : (0 < st)%Z) by lia.
    specialize (Ha Hst). specialize (Hb Hst).
    assert (Hs : (st <? 0)%Z = false) by (apply Z.ltb_ge; lia).
    rewrite Hs in Hk.
    destruct (a <? b)%Z eqn:Hab; [apply Z.ltb_lt in Hab | lia].
    assert (Hq : (Z.of_nat k <= (b - a - 1) / st)%Z).
    { assert (0 <= (b - a - 1) / st)%Z by (apply Z.div_pos; lia). lia. }
    assert (Hm : (st * ((b - a - 1) / st) <= b - a - 1)%Z)
      by (apply Z.mul_div_le; lia).
    assert (Hkm : (Z.of_nat k * st <= b - a - 1)%Z) by nia.
    assert (0 <= Z.of_nat k * st)%Z by nia.
    lia.
Qed.

Lemma str_getitem_chars (s : list ascii) (key : PySlice.key)
    (t : list ascii) :
  PySlice.getitem s key = Ok t ->
  forall c, In c t -> In c s.
Proof.
  intros H c Hc. destruct key as [i | start stop step];
    unfold PySlice.getitem in H.
  - destruct (PySlice.index (List.length s) i) as [j | e |] eqn:Hi;
      cbn [bind] in H; try discriminate.
    inversion H; subst. destruct Hc as [<- | []].
    apply nth_In. now apply index_bound in Hi.
  - destruct (PySlice.positions (List.length s) start stop step)
      as [ps | e |] eqn:Hp; cbn [bind] in H; try discriminate.
    inversion H; subst. apply in_map_iff in Hc.
    destruct Hc as [j [<- Hj]]. apply nth_In.
    apply positions_in_range in Hp.
    rewrite Forall_forall in Hp. now apply Hp.
Qed.

(** Whatever the subscript (an index, or a slice with any step), a
    successful [x[key]] is a new sequence of the class of [x] with its
    alphabet and wildcard and no name, and each of its residues is a residue
    of [x]: a sequence valid for its alphabet stays so. *)
Theorem getitem_keeps_residues (x y : Seq.Sequence) (key : PySlice.key) :
  Items.getitem x key = Ok y ->
  Spec.same_meta x y /\
  Seq.name y = [] /\
  (forall c, In c (Seq.seq y) -> In c (Seq.seq x)) /\
  (Spec.valid_in (Seq.alphabet x) (Seq.seq x) ->
   Spec.valid_in (Seq.alphabet y) (Seq.seq y)).
Proof.
  intros H.
  assert (Hres : Spec.same_meta x y /\ Seq.name y = [] /\
                 forall c, In c (Seq.seq y) -> In c (Seq.seq x)).
  { unfold Items.getitem in H.
    destruct (Seq.seq x) as [| c0 s] eqn:Hs.
    - destruct key as [i | a b c]; [discriminate |].
      unfold Seq.copy, Seq.init in H. cbn [negb bind] in H.
      inversion H; subst. cbn. rewrite Hs.
      repeat split; auto.
    - destruct (PySlice.getitem (c0 :: s) key) as [t | e |] eqn:Ht;
        cbn [bind] in H; try discriminate.
      unfold Seq.copy, Seq.init in H. cbn [negb bind] in H.
      inversion H; subst. cbn.
      repeat split. intros c Hc.
      apply (str_getitem_chars _ _ _ Ht c Hc). }
  destruct Hres as [Hm [Hn Hin]].
  split; [exact Hm |]. split; [exact Hn |]. split; [exact Hin |].
  destruct Hm as [_ [Ha _]]. rewrite Ha. unfold Spec.valid_in.
  rewrite !Forall_forall. intros Hv c Hc. apply Hv, Hin, Hc.
Qed.

Lemma getitem_keeps_residues_witness :
  let dna := Seq.mkAlphabet "ATGCN"%string None in
  let x := Seq.mkSequence "Sequence" "ATGCATGC"%string dna "N"%string
             "insert"%string in
  let y := Seq.mkSequence "Sequence" "CAT"%string dna "N"%string [] in
  let key := PySlice.KSlice (Some (-1)%Z) None (Some (-3)%Z) in
  Items.getitem x key = Ok y /\
  Spec.same_meta x y /\
  Seq.name y = [] /\
  (forall c, In c (Seq.seq y) -> In c (Seq.seq x)) /\
  (Spec.valid_in (Seq.alphabet x) (Seq.seq x) ->
   Spec.valid_in (Seq.alphabet y) (Seq.seq y)).
Proof.
  intros dna x y key.
  assert (H : Items.getitem x key = Ok y) by reflexivity.
  split; [exact H | exact (getitem_keeps_residues x y key H)].
Defined.

(** A slice of the empty sequence is an empty copy, even with a zero step;
    on any other sequence a zero step is a [ValueError]. *)
Theorem getitem_zero_step (x : Seq.Sequence) (start stop : option Z) :
  (Seq.seq x = [] ->
   Items.getitem x (PySlice.KSlice start stop (Some 0%Z)) =
   Ok (Seq.mkSequence (Seq.cls x) [] (Seq.alphabet x)
         (Seq.any_char x) [])) /\
  (Seq.seq x <> [] ->
   Items.getitem x (PySlice.KSlice start stop (Some 0%Z)) =
   Raise ValueError).
Proof.
  split; intros H.
  - unfold Items.getitem, Seq.copy, Seq.init. rewrite H. reflexivity.
  - rewrite (getitem_nonempty x _ H). reflexivity.
Qed.

Lemma getitem_zero_step_witness :
  let dna := Seq.mkAlphabet "ATGCN"%string None in
  Items.getitem (Seq.mkSequence "Sequence" [] dna "N"%string [])
                (PySlice.KSlice None None (Some 0%Z)) =
  Ok (Seq.mkSequence "Sequence" [] dna "N"%string []) /\
  Items.getitem (Seq.mkSequence "Sequence" "AT"%string dna "N"%string [])
                (PySlice.KSlice None None (Some 0%Z)) =
  Raise ValueError.
Proof.
  intros dna. split.
  - apply (proj1 (getitem_zero_step
                    (Seq.mkSequence "Sequence" [] dna "N"%string [])
                    None None)). reflexivity.
  - apply (proj2 (getitem_zero_step
                    (Seq.mkSequence "Sequence" "AT"%string dna
                       "N"%string [])
                    None None)). discriminate.
Defined.

Lemma map_nth_backward {A : Type} (d : A) (s : list A) :
  map (fun k => nth (List.length s - 1 - k) s d)
      (List.seq 0 (List.length s)) = rev s.
Proof.
  induction s as [| x s IH] using rev_ind; [reflexivity |].
  rewrite length_app, Nat.add_comm. cbn [List.length Nat.add List.seq map].
  rewrite rev_app_distr. cbn [rev app]. f_equal.
  - replace (S (List.length s) - 1 - 0) with (List.length s) by lia.
    apply nth_middle.
  - rewrite <- seq_shift, map_map, <- IH. apply map_ext_in.
    intros k Hk. apply in_seq in Hk.
    replace (S (List.length s) - 1 - S k) with (List.length s - 1 - k)
      by lia.
    apply app_nth1. lia.
Qed.

Lemma str_getitem_backward (s : list ascii) :
  PySlice.getitem s (PySlice.KSlice None None (Some (-1)%Z)) = Ok (rev s).
Proof.
  unfold PySlice.getitem, PySlice.positions. cbn [Z.eqb bind].
  cbn [PySlice.adjust Z.ltb Z.compare].
  assert (Hn : PySlice.slice_length (Z.of_nat (List.length s) - 1) (-1)
                 (-1) = List.length s).
  { unfold PySlice.slice_length. cbn [Z.ltb Z.compare Z.opp].
    destruct (-1 <? Z.of_nat (List.length s) - 1)%Z eqn:Hl;
      [apply Z.ltb_lt in Hl | apply Z.ltb_ge in Hl; lia].
    rewrite Z.div_1_r. lia. }
  rewrite Hn, map_map. f_equal. rewrite <- (map_nth_backward zero s).
  apply map_ext_in. intros k Hk. apply in_seq in Hk. f_equal. lia.
Qed.

(** [x[::-1]] holds the residues of [x] in reverse order, and reversing
    twice gives the residues of [x] back; this also holds for the empty
    sequence, where the slice is not evaluated at all. *)
Theorem getitem_reverse_twice (x : Seq.Sequence) :
  exists y z,
    Items.getitem x (PySlice.KSlice None None (Some (-1)%Z)) = Ok y /\
    Seq.seq y = rev (Seq.seq x) /\
    Items.getitem y (PySlice.KSlice None None (Some (-1)%Z)) = Ok z /\
    Seq.seq z = Seq.seq x /\
    Spec.same_meta x z.
Proof.
  exists (Seq.mkSequence (Seq.cls x) (rev (Seq.seq x)) (Seq.alphabet x)
            (Seq.any_char x) []),
         (Seq.mkSequence (Seq.cls x) (Seq.seq x) (Seq.alphabet x)
            (Seq.any_char x) []).
  destruct (Seq.seq x) as [| c s] eqn:Hs.
  - unfold Items.getitem, Seq.copy, Seq.init. cbn [Seq.seq rev].
    rewrite Hs. cbn [negb bind].
    repeat split; reflexivity.
  - assert (Hne : Seq.seq x <> []) by (rewrite Hs; discriminate).
    rewrite (getitem_nonempty x _ Hne), Hs, str_getitem_backward.
    cbn [bind]. split; [reflexivity |]. split; [reflexivity |].
    rewrite getitem_nonempty.
    + cbn [Seq.seq Seq.cls Seq.alphabet Seq.any_char].
      rewrite str_getitem_backward, rev_involutive. cbn [bind].
      repeat split; reflexivity.
    + cbn [Seq.seq]. intros He. apply (f_equal (@List.length ascii)) in He.
      rewrite length_rev in He. discriminate.
Qed.

(** ** Deletion and assignment *)

Lemma remove_at_one {A : Type} (l : list A) :
  forall i j, i <= j -> j < i + List.length l ->
              PySlice.remove_at [j] i l =
              firstn (j - i) l ++ skipn (S (j - i)) l.
Proof.
  induction l as [| a l IH]; intros i j Hij Hj; [simpl in Hj; lia |].
  cbn [PySlice.remove_at existsb orb].
  destruct (Nat.eqb i j) eqn:He;
    [apply Nat.eqb_eq in He | apply Nat.eqb_neq in He]; cbn [orb].
  - subst j. rewrite Nat.sub_diag. cbn [firstn skipn app].
    clear IH Hij Hj. assert (H : forall (m : list A) k, i < k ->
                                 PySlice.remove_at [i] k m = m).
    { induction m as [| b m IHm]; intros k Hk; [reflexivity |].
      cbn [PySlice.remove_at existsb orb].
      destruct (Nat.eqb k i) eqn:Hki;
        [apply Nat.eqb_eq in Hki; lia |].
      cbn [orb]. now rewrite IHm by lia. }
    apply H. lia.
  - rewrite (IH (S i) j) by (simpl in Hj; lia).
    replace (j - i) with (S (j - S i)) by lia. reflexivity.
Qed.

Lemma remove_at_In {A : Type} (drop : list nat) (l : list A) (c : A) :
  forall i, In c (PySlice.remove_at drop i l) -> In c l.
Proof.
  induction l as [| a l IH]; intros i H; [contradiction |].
  cbn [PySlice.remove_at] in H.
  destruct (existsb (Nat.eqb i) drop).
  - right. eapply IH, H.
  - destruct H as [<- | H]; [now left | right; eapply IH, H].
Qed.

Lemma remove_at_length {A : Type} (drop : list nat) (l : list A) :
  forall i, List.length (PySlice.remove_at drop i l) <= List.length l.
Proof.
  induction l as [| a l IH]; intros i; [simpl; lia |].
  cbn [PySlice.remove_at]. destruct (existsb (Nat.eqb i) drop);
    cbn [List.length]; specialize (IH (S i)); lia.
Qed.

(** [del x[i]] for an integer [i]: with [i] from [-len] to [len - 1] the
    residue at that place is removed from [x] itself, which keeps its class,
    alphabet, wildcard and name and is one residue shorter; any other index
    (every index, if [x] is empty) is an [IndexError]. *)
Theorem delitem_integer (x : Seq.Sequence) (i : Z) :
  ((- Z.of_nat (Seq.len x) <= i < Z.of_nat (Seq.len x))%Z ->
   let j := Z.to_nat (if (i <? 0)%Z then i + Z.of_nat (Seq.len x)
                      else i) in
   Items.delitem x (PySlice.KInt i) =
   Ok (Seq.mkSequence (Seq.cls x)
         (firstn j (Seq.seq x) ++ skipn (S j) (Seq.seq x))
         (Seq.alphabet x) (Seq.any_char x) (Seq.name x)) /\
   List.length (firstn j (Seq.seq x) ++ skipn (S j) (Seq.seq x))
   = Seq.len x - 1) /\
  ((i < - Z.of_nat (Seq.len x) \/ Z.of_nat (Seq.len x) <= i)%Z ->
   Items.delitem x (PySlice.KInt i) = Raise IndexError).
Proof.
  split; intros H.
  - intros j. unfold Seq.len in *.
    destruct (index_inside _ _ H) as [Hi Hj]. fold j in Hi, Hj.
    split.
    + unfold Items.delitem, PySlice.delitem. rewrite Hi. cbn [bind].
      rewrite remove_at_one by lia. rewrite Nat.sub_0_r. reflexivity.
    + rewrite length_app, length_firstn, length_skipn. lia.
  - unfold Seq.len in H. unfold Items.delitem, PySlice.delitem.
    rewrite index_outside by exact H. reflexivity.
Qed.

Lemma delitem_integer_witness :
  let dna := Seq.mkAlphabet "ATGCN"%string None in
  let x := Seq.mkSequence "Sequence" "ATGC"%string dna "N"%string
             "insert"%string in
  Items.delitem x (PySlice.KInt (-2)) =
  Ok (Seq.mkSequence "Sequence" "ATC"%string dna "N"%string
        "insert"%string) /\
  Items.delitem x (PySlice.KInt (-5)) = Raise IndexError.
Proof.
  intros dna x. split.
  - apply (proj1 (proj1 (delitem_integer x (-2)) ltac:(cbn; lia))).
  - apply (proj2 (delitem_integer x (-5))). cbn. lia.
Defined.

(** Deletion, by index or by slice with any step, never brings in a
    residue: what is left of [x] is made of residues of [x], so a sequence
    valid for its alphabet stays so, and its class, alphabet, wildcard and
    name are untouched. *)
Theorem delitem_keeps_residues (x y : Seq.Sequence) (key : PySlice.key) :
  Items.delitem x key = Ok y ->
  Spec.same_meta x y /\
  Seq.name y = Seq.name x /\
  (forall c, In c (Seq.seq y) -> In c (Seq.seq x)) /\
  List.length (Seq.seq y) <= List.length (Seq.seq x) /\
  (Spec.valid_in (Seq.alphabet x) (Seq.seq x) ->
   Spec.valid_in (Seq.alphabet y) (Seq.seq y)).
Proof.
  intros H. unfold Items.delitem in H.
  destruct (PySlice.delitem (Seq.seq x) key) as [l | e |] eqn:Hd;
    cbn [bind] in H; try discriminate.
  inversion H; subst. cbn [Seq.with_seq Seq.seq Seq.name Seq.alphabet].
  assert (Hl : exists drop, l = PySlice.remove_at drop 0 (Seq.seq x)).
  { unfold PySlice.delitem in Hd. destruct key as [i | a b c].
    - destruct (PySlice.index _ i); cbn [bind] in Hd; try discriminate.
      inversion Hd. eauto.
    - destruct (PySlice.positions _ a b c); cbn [bind] in Hd;
        try discriminate.
      inversion Hd. eauto. }
  destruct Hl as [drop ->].
  assert (Hin : forall c, In c (PySlice.remove_at drop 0 (Seq.seq x)) ->
                          In c (Seq.seq x))
    by (intros c; apply remove_at_In).
  split; [repeat split |]. split; [reflexivity |].
  split; [exact Hin |]. split.
  - apply remove_at_length.
  - unfold Spec.valid_in. rewrite !Forall_forall.
    intros Hv c Hc. apply Hv, Hin, Hc.
Qed.

Lemma delitem_keeps_residues_witness :
  let dna := Seq.mkAlphabet "ATGCN"%string None in
  let x := Seq.mkSequence "Sequence" "ATGCATGC"%string dna "N"%string
             "insert"%string in
  let y := Seq.mkSequence "Sequence" "TCTC"%string dna "N"%string
             "insert"%string in
  let key := PySlice.KSlice None None (Some 2%Z) in
  Items.delitem x key = Ok y /\
  Spec.same_meta x y /\
  Seq.name y = Seq.name x /\
  (forall c, In c (Seq.seq y) -> In c (Seq.seq x)) /\
  List.length (Seq.seq y) <= List.length (Seq.seq x) /\
  (Spec.valid_in (Seq.alphabet x) (Seq.seq x) ->
   Spec.valid_in (Seq.alphabet y) (Seq.seq y)).
Proof.
  intros dna x y key.
  assert (H : Items.delitem x key = Ok y) by reflexivity.
  split; [exact H | exact (delitem_keeps_residues x y key H)].
Defined.

Lemma valid_in_forallb (a : Seq.Alphabet) (s : list ascii) :
  forallb (fun c => PyStr.mem c
             (Seq.symbols a ++ PyStr.lower (Seq.symbols a))) s = true <->
  Spec.valid_in a s.
Proof.
  unfold Spec.valid_in. rewrite forallb_forall, Forall_forall.
  split; intros H c Hc; apply mem_In, H, Hc.
Qed.

(** What [__setitem__] does with an integer index, for an alphabet that has
    symbols. *)
Lemma setitem_eval (x : Seq.Sequence) (i : Z) (v : list ascii) :
  Seq.symbols (Seq.alphabet x) <> [] ->
  Items.setitem x i v =
  if forallb (fun c => PyStr.mem c
                (Seq.symbols (Seq.alphabet x)
                 ++ PyStr.lower (Seq.symbols (Seq.alphabet x))))
             (PyStr.upper v)
  then j <- PySlice.index (Seq.len x) i ;;
       Ok (Seq.with_seq x (firstn j (Seq.seq x) ++ PyStr.upper v
                           ++ skipn (S j) (Seq.seq x)))
  else Raise AlphabetError.
Proof.
  intros Hne. unfold Items.setitem. rewrite (init_checked _ _ _ _ _ Hne).
  destruct (forallb _ (PyStr.upper v)); reflexivity.
Qed.

(** For an alphabet with at least one symbol: [x[i] = v] for an integer
    [i] from [-len] to [len - 1] and a value [v] whose upper-case form is
    made of symbols of the alphabet replaces the one residue at that place
    in [x] itself by the whole of [v.upper()], however long [v] is, so the
    length changes by [len(v) - 1]; class, alphabet, wildcard and name are
    kept, and a valid sequence stays valid. *)
Theorem setitem_replaces_one (x : Seq.Sequence) (i : Z) (v : list ascii) :
  Seq.symbols (Seq.alphabet x) <> [] ->
  Spec.valid_in (Seq.alphabet x) (PyStr.upper v) ->
  (- Z.of_nat (Seq.len x) <= i < Z.of_nat (Seq.len x))%Z ->
  let j := Z.to_nat (if (i <? 0)%Z then i + Z.of_nat (Seq.len x)
                     else i) in
  exists y,
    Items.setitem x i v = Ok y /\
    Seq.seq y = firstn j (Seq.seq x) ++ PyStr.upper v
                ++ skipn (S j) (Seq.seq x) /\
    Seq.len y + 1 = Seq.len x + List.length v /\
    Spec.same_meta x y /\
    Seq.name y = Seq.name x /\
    (Spec.valid_in (Seq.alphabet x) (Seq.seq x) ->
     Spec.valid_in (Seq.alphabet y) (Seq.seq y)).
Proof.
  intros Hne Hv Hi j. rewrite (setitem_eval x i v Hne).
  apply valid_in_forallb in Hv. rewrite Hv.
  destruct (index_inside _ _ Hi) as [He Hj]. fold j in He, Hj.
  rewrite He. cbn [bind]. eexists. split; [reflexivity |].
  cbn [Seq.with_seq Seq.seq Seq.name Seq.alphabet].
  split; [reflexivity |]. split; [| split; [repeat split |]].
  - unfold Seq.len in *. cbn [Seq.with_seq Seq.seq].
    rewrite !length_app, length_firstn, length_skipn, upper_length. lia.
  - split; [reflexivity |]. intros Hx. unfold Spec.valid_in in *.
    apply Forall_app. split; [| apply Forall_app; split].
    + rewrite <- (firstn_skipn j (Seq.seq x)) in Hx.
      apply Forall_app in Hx. apply Hx.
    + now apply valid_in_forallb.
    + rewrite <- (firstn_skipn (S j) (Seq.seq x)) in Hx.
      apply Forall_app in Hx. apply Hx.
Qed.

Lemma setitem_replaces_one_witness :
  let dna := Seq.mkAlphabet "ATGCN"%string None in
  let x := Seq.mkSequence "Sequence" "ATGC"%string dna "N"%string
             "insert"%string in
  exists y,
    Items.setitem x (-3) "ccn"%string = Ok y /\
    Seq.seq y = list_ascii_of_string "ACCNGC" /\
    Seq.len y + 1 = Seq.len x + 3 /\
    Spec.same_meta x y /\
    Seq.name y = Seq.name x /\
    (Spec.valid_in (Seq.alphabet x) (Seq.seq x) ->
     Spec.valid_in (Seq.alphabet y) (Seq.seq y)).
Proof.
  intros dna x.
  apply (setitem_replaces_one x (-3) "ccn"%string).
  - discriminate.
  - apply valid_in_forallb. reflexivity.
  - cbn. lia.
Defined.

(** For an alphabet with at least one symbol, the value is built and
    checked before the index is looked at: a value with a character outside
    the alphabet raises [AlphabetError] whatever the index, in range or
    not; a valid value at an index outside [-len .. len - 1] (every index,
    on the empty sequence) raises [IndexError].  For an alphabet without
    symbols every assignment fails in the check itself, with the error of
    [re], whatever the value and the index. *)
Theorem setitem_errors (x : Seq.Sequence) (i : Z) (v : list ascii) :
  (Seq.symbols (Seq.alphabet x) <> [] ->
   (~ Spec.valid_in (Seq.alphabet x) (PyStr.upper v) ->
    Items.setitem x i v = Raise AlphabetError) /\
   (Spec.valid_in (Seq.alphabet x) (PyStr.upper v) ->
    (i < - Z.of_nat (Seq.len x) \/ Z.of_nat (Seq.len x) <= i)%Z ->
    Items.setitem x i v = Raise IndexError)) /\
  (Seq.symbols (Seq.alphabet x) = [] ->
   Items.setitem x i v = Raise ReError).
Proof.
  split.
  - intros Hne. rewrite (setitem_eval x i v Hne).
    pose proof (valid_in_forallb (Seq.alphabet x) (PyStr.upper v)) as Hv.
    destruct (forallb _ (PyStr.upper v)).
    + split; [intros Hn; exfalso; apply Hn, Hv; reflexivity |].
      intros _ Hi. rewrite index_outside by exact Hi. reflexivity.
    + split; [reflexivity |]. intros H. apply Hv in H. discriminate.
  - intros He. unfold Items.setitem, Seq.init. rewrite He. reflexivity.
Qed.

Lemma setitem_errors_witness :
  let dna := Seq.mkAlphabet "ATGCN"%string None in
  let x := Seq.mkSequence "Sequence" "ATGC"%string dna "N"%string [] in
  let z := Seq.mkSequence "Sequence" "ATGC"%string
             (Seq.mkAlphabet [] None) "N"%string [] in
  Items.setitem x 7 "AU"%string = Raise AlphabetError /\
  Items.setitem x 7 "a"%string = Raise IndexError /\
  Items.setitem z 0 [] = Raise ReError.
Proof.
  intros dna x z.
  assert (Hne : Seq.symbols (Seq.alphabet x) <> []) by discriminate.
  split; [| split].
  - apply (proj1 (proj1 (setitem_errors x 7 "AU"%string) Hne)).
    intros H. apply valid_in_forallb in H. discriminate.
  - apply (proj2 (proj1 (setitem_errors x 7 "a"%string) Hne)).
    + apply valid_in_forallb. reflexivity.
    + cbn. lia.
  - apply (proj2 (setitem_errors z 0 [])). reflexivity.
Defined.

Lemma nth_replaced {A : Type} (d c : A) (l : list A) (j k : nat) :
  j < List.length l ->
  nth k (firstn j l ++ [c] ++ skipn (S j) l) d =
  if Nat.eqb k j then c else nth k l d.
Proof.
  intros Hj.
  assert (Hf : List.length (firstn j l) = j)
    by (rewrite length_firstn; lia).
  destruct (Nat.eqb_spec k j) as [-> | Hkj].
  - rewrite app_nth2 by lia. rewrite Hf, Nat.sub_diag. reflexivity.
  - destruct (Nat.lt_ge_cases k j) as [Hlt | Hge].
    + rewrite app_nth1 by lia. rewrite nth_firstn.
      apply Nat.ltb_lt in Hlt. now rewrite Hlt.
    + rewrite app_nth2 by lia. rewrite Hf.
      replace (k - j) with (S (k - S j)) by lia. cbn [app nth].
      rewrite nth_skipn. f_equal. lia.
Qed.

(** Assigning one valid character and reading it back: [x[i] = c] leaves
    the length as it was, [x[i]] is then [c.upper()], and every other
    place reads as before. *)
Theorem setitem_then_getitem (x : Seq.Sequence) (i : Z) (c : ascii) :
  Seq.symbols (Seq.alphabet x) <> [] ->
  Spec.valid_in (Seq.alphabet x) [PyStr.upper_char c] ->
  (- Z.of_nat (Seq.len x) <= i < Z.of_nat (Seq.len x))%Z ->
  exists y,
    Items.setitem x i [c] = Ok y /\
    Seq.len y = Seq.len x /\
    Items.getitem y (PySlice.KInt i) =
    Ok (Seq.mkSequence (Seq.cls x) [PyStr.upper_char c] (Seq.alphabet x)
          (Seq.any_char x) []) /\
    forall k : Z,
      (- Z.of_nat (Seq.len x) <= k < Z.of_nat (Seq.len x))%Z ->
      ((k - i) mod Z.of_nat (Seq.len x) <> 0)%Z ->
      Items.getitem y (PySlice.KInt k) = Items.getitem x (PySlice.KInt k).
Proof.
  intros Hne Hv Hi. rewrite (setitem_eval x i [c] Hne).
  apply valid_in_forallb in Hv. cbn [PyStr.upper map]. rewrite Hv.
  destruct (index_inside _ _ Hi) as [He Hj]. rewrite He. cbn [bind].
  set (j := Z.to_nat (if (i <? 0)%Z then i + Z.of_nat (Seq.len x)
                      else i)) in *.
  set (y := Seq.with_seq x _).
  assert (Hlen : Seq.len y = Seq.len x).
  { unfold Seq.len in *. unfold y. cbn [Seq.with_seq Seq.seq].
    rewrite !length_app, length_firstn, length_skipn. simpl. lia. }
  exists y. split; [reflexivity |]. split; [exact Hlen |]. split.
  - rewrite <- Hlen in Hi.
    rewrite (proj1 (getitem_integer y i) Hi). rewrite Hlen. fold j.
    unfold y. cbn [Seq.with_seq Seq.seq Seq.cls Seq.alphabet Seq.any_char].
    unfold Seq.len in Hj. rewrite (nth_replaced zero _ _ j j Hj).
    now rewrite Nat.eqb_refl.
  - intros k Hk Hki.
    rewrite (proj1 (getitem_integer x k) Hk).
    rewrite <- Hlen in Hk. rewrite (proj1 (getitem_integer y k) Hk).
    rewrite Hlen in *.
    unfold y. cbn [Seq.with_seq Seq.seq Seq.cls Seq.alphabet Seq.any_char].
    unfold Seq.len in Hj. rewrite (nth_replaced zero _ _ j _ Hj).
    fold (Seq.len x).
    destruct (Nat.eqb_spec
                (Z.to_nat (if (k <? 0)%Z then k + Z.of_nat (Seq.len x)
                           else k)) j) as [Heq | _]; [| reflexivity].
    exfalso. apply Hki. unfold j in Heq.
    destruct (k <? 0)%Z eqn:Hk0, (i <? 0)%Z eqn:Hi0;
      try apply Z.ltb_lt in Hk0; try apply Z.ltb_lt in Hi0;
      try apply Z.ltb_ge in Hk0; try apply Z.ltb_ge in Hi0.
    + replace (k - i)%Z with 0%Z by lia. apply Z.mod_0_l. lia.
    + replace (k - i)%Z with (-1 * Z.of_nat (Seq.len x))%Z by lia.
      apply Z.mod_mul. lia.
    + replace (k - i)%Z with (1 * Z.of_nat (Seq.len x))%Z by lia.
      apply Z.mod_mul. lia.
    + replace (k - i)%Z with 0%Z by lia. apply Z.mod_0_l. lia.
Qed.

Lemma setitem_then_getitem_witness :
  let dna := Seq.mkAlphabet "ATGCN"%string None in
  let x := Seq.mkSequence "Sequence" "ATGC"%string dna "N"%string
             "insert"%string in
  exists y,
    Items.setitem x (-1) ["n"%char] = Ok y /\
    Seq.len y = Seq.len x /\
    Items.getitem y (PySlice.KInt (-1)) =
    Ok (Seq.mkSequence "Sequence" "N"%string dna "N"%string []) /\
    forall k : Z,
      (- Z.of_nat (Seq.len x) <= k < Z.of_nat (Seq.len x))%Z ->
      ((k - -1) mod Z.of_nat (Seq.len x) <> 0)%Z ->
      Items.getitem y (PySlice.KInt k) = Items.getitem x (PySlice.KInt k).
Proof.
  intros dna x.
  apply (setitem_then_getitem x (-1) "n"%char).
  - discriminate.
  - apply valid_in_forallb. reflexivity.
  - cbn. lia.
Defined.

(** Assigning the empty string is a deletion: [x[i] = ''] leaves [x] as
    [del x[i]] does, and fails as it does when [i] is out of range. *)
Theorem setitem_empty_deletes (x : Seq.Sequence) (i : Z) :
  Seq.symbols (Seq.alphabet x) <> [] ->
  Items.setitem x i [] = Items.delitem x (PySlice.KInt i).
Proof.
  intros Hne. rewrite (setitem_eval x i [] Hne). cbn [PyStr.upper map forallb].
  unfold Items.delitem, PySlice.delitem, Seq.len.
  destruct (PySlice.index (List.length (Seq.seq x)) i) as [j | e |] eqn:Hi;
    cbn [bind]; try reflexivity.
  apply index_bound in Hi.
  rewrite remove_at_one by lia. rewrite Nat.sub_0_r. reflexivity.
Qed.

Lemma setitem_empty_deletes_witness :
  let dna := Seq.mkAlphabet "ATGCN"%string None in
  let x := Seq.mkSequence "Sequence" "ATGC"%string dna "N"%string [] in
  Items.setitem x 1 [] = Items.delitem x (PySlice.KInt 1) /\
  Items.delitem x (PySlice.KInt 1) =
  Ok (Seq.mkSequence "Sequence" "AGC"%string dna "N"%string []).
Proof.
  intros dna x. split; [| reflexivity].
  apply (setitem_empty_deletes x 1). discriminate.
Defined.

(** ** Display *)

(** [repr(x)] never fails and is at most 89 characters long: a sequence of
    fewer than 90 residues is shown whole, a longer one as its first 40
    residues, [" ... "], and its last 40 residues, 85 characters in all. *)
Theorem repr_elides_long (x : Seq.Sequence) :
  exists r,
    Items.repr x = Ok r /\
    List.length r <= 89 /\
    (Seq.len x < 90 -> r = Seq.seq x) /\
    (90 <= Seq.len x ->
     r = firstn 40 (Seq.seq x) ++ list_ascii_of_string " ... "
         ++ skipn (Seq.len x - 40) (Seq.seq x) /\
     List.length r = 85).
Proof.
  unfold Items.repr, Seq.len.
  destruct (List.length (Seq.seq x) <? 90) eqn:Hlen;
    [apply Nat.ltb_lt in Hlen | apply Nat.ltb_ge in Hlen].
  - exists (Seq.seq x). split; [reflexivity |]. split; [lia |].
    split; [reflexivity | lia].
  - rewrite !getitem_slice_forward. cbn [bind].
    assert (H40 : Spec.cut (List.length (Seq.seq x)) 40 = 40)
      by (unfold Spec.cut; change (40 <? 0)%Z with false; cbv iota; lia).
    assert (Hm40 : Spec.cut (List.length (Seq.seq x)) (- (40))
                   = List.length (Seq.seq x) - 40)
      by (unfold Spec.cut; change (- (40) <? 0)%Z with true; cbv iota;
          lia).
    rewrite H40, Hm40. cbn [skipn]. rewrite Nat.sub_0_r.
    rewrite (firstn_all2 (skipn _ _)) by (rewrite length_skipn; lia).
    eexists. split; [reflexivity |].
    assert (H85 : List.length
                    (firstn 40 (Seq.seq x) ++ list_ascii_of_string " ... "
                     ++ skipn (List.length (Seq.seq x) - 40) (Seq.seq x))
                  = 85).
    { rewrite !length_app, length_firstn, length_skipn.
      change (List.length (list_ascii_of_string " ... ")) with 5. lia. }
    split; [rewrite H85; lia |]. split; [lia |].
    intros _. split; [reflexivity | exact H85].
Qed.

(** ** Reflected addition, repetition *)

Lemma coerce_class (init1 : string -> Seq.pyval -> result Seq.Sequence)
    (x y : Seq.Sequence) (other : Seq.pyval) :
  Seq.coerce init1 x other = Ok y -> Seq.cls y = Seq.cls x.
Proof.
  assert (Hc : forall r,
             match Seq.construct1 init1 (Seq.cls x) other with
             | Raise AttributeError => Raise TypeError
             | r' => r'
             end = Ok r -> Seq.cls r = Seq.cls x).
  { intros r. unfold Seq.construct1.
    destruct (String.eqb (Seq.cls x) "Sequence"); [discriminate |].
    destruct (init1 (Seq.cls x) other) as [o | [] |]; cbn [bind];
      try discriminate.
    intros H. inversion H. reflexivity. }
  unfold Seq.coerce. destruct other as [| z | f | s | o]; try apply Hc.
  destruct (String.eqb_spec (Seq.cls x) (Seq.cls o)) as [He | _];
    [| apply Hc].
  intros H. inversion H. subst. now symmetry.
Qed.

(** [x.__radd__(o)] is [x] itself when [o] is [0] (or equal to it) or
    [None], and is [x.__add__(o)] for every other [o]: the operand that
    Python found on the left of [+] is appended after [x].  For a sequence
    [y] of the class of [x] that does not read ["0"], the residues are those
    of [x] followed by those of [y]. *)
Theorem radd_is_add (init1 : string -> Seq.pyval -> result Seq.Sequence)
    (x : Seq.Sequence) (other : Seq.pyval) :
  (Seq.py_eq_zero other = true \/ other = Seq.PyNone ->
   Seq.radd init1 x other = Ok x) /\
  (Seq.py_eq_zero other = false -> other <> Seq.PyNone ->
   Seq.radd init1 x other = Seq.add init1 x other) /\
  (forall y, other = Seq.PySeq y -> Seq.cls y = Seq.cls x ->
             Seq.seq y <> list_ascii_of_string "0" ->
             Seq.radd init1 x other =
             Ok (Seq.mkSequence (Seq.cls x) (Seq.seq x ++ Seq.seq y)
                   (Seq.alphabet x) (Seq.any_char x) [])).
Proof.
  assert (Hadd : Seq.py_eq_zero other = false -> other <> Seq.PyNone ->
                 Seq.radd init1 x other = Seq.add init1 x other).
  { intros Hz Hn. unfold Seq.radd. rewrite Hz. cbn [orb].
    destruct other as [| z | f | s | o]; [now contradiction Hn | | | |];
      unfold Seq.add at 2;
      (destruct (Seq.coerce init1 x _) as [y | e |] eqn:Hc; cbn [bind];
       [| reflexivity | reflexivity]);
      apply coerce_class in Hc;
      rewrite (add_same_class init1 x y) by (now symmetry);
      reflexivity. }
  split; [| split; [exact Hadd |]].
  - intros [Hz | ->]; unfold Seq.radd; [rewrite Hz |]; reflexivity.
  - intros y -> Hc Hs. rewrite Hadd; [| | discriminate].
    + now apply add_same_class.
    + cbn [Seq.py_eq_zero]. unfold Seq.to_str.
      destruct (list_eq_dec ascii_dec (Seq.seq y) "0"%string);
        [contradiction | reflexivity].
Qed.

Lemma radd_is_add_witness :
  let dna := Seq.mkAlphabet "ATGC"%string None in
  let init1 := fun (c : string) (v : Seq.pyval) =>
                 match v with
                 | Seq.PyStr s => Ok (Seq.mkSequence c s dna "N"%string [])
                 | _ => Raise AttributeError
                 end in
  let x := Seq.mkSequence "DNA" "ATG"%string dna "N"%string
             "insert"%string in
  Seq.radd init1 x (Seq.PyFloat (Finite 0)) = Ok x /\
  Seq.radd init1 x (Seq.PyStr "CC"%string) =
  Ok (Seq.mkSequence "DNA" "ATGCC"%string dna "N"%string []).
Proof.
  intros dna init1 x. split.
  - apply (proj1 (radd_is_add init1 x (Seq.PyFloat (Finite 0)))).
    left. reflexivity.
  - rewrite (proj1 (proj2 (radd_is_add init1 x (Seq.PyStr "CC"%string))));
      [reflexivity | reflexivity | discriminate].
Defined.

(** Multiplication by a negative integer raises [ValueError], from the
    conversion of the sign of [bin(n)], before anything is yielded. *)
Theorem mul_negative_integer
    (init1 : string -> Seq.pyval -> result Seq.Sequence)
    (x : Seq.Sequence) (n : Z) :
  (n < 0)%Z ->
  Seq.mul init1 x (Seq.PyInt n) = Raise ValueError /\
  fst (Seq._decompose init1 x (Seq.PyInt n)) = [].
Proof.
  intros Hn. destruct n as [| p | p]; try lia. apply mul_negative.
Qed.

Lemma mul_negative_integer_witness :
  let init1 := fun (_ : string) (_ : Seq.pyval) =>
                 @Raise Seq.Sequence AttributeError in
  let x := Seq.mkSequence "Sequence" "AT"%string
             (Seq.mkAlphabet "ATGC"%string None) "N"%string [] in
  Seq.mul init1 x (Seq.PyInt (-6)) = Raise ValueError /\
  fst (Seq._decompose init1 x (Seq.PyInt (-6))) = [].
Proof.
  intros init1 x. apply (mul_negative_integer init1 x (-6)). lia.
Defined.

(** Concatenation of sequences of one class is associative: [(x + y) + z]
    and [x + (y + z)] are the same sequence, the residues of [x], [y] and
    [z] in that order. *)
Theorem add_associative
    (init1 : string -> Seq.pyval -> result Seq.Sequence)
    (x y z : Seq.Sequence) :
  Seq.cls y = Seq.cls x ->
  Seq.cls z = Seq.cls x ->
  exists a b r,
    Seq.add init1 x (Seq.PySeq y) = Ok a /\
    Seq.add init1 y (Seq.PySeq z) = Ok b /\
    Seq.add init1 a (Seq.PySeq z) = Ok r /\
    Seq.add init1 x (Seq.PySeq b) = Ok r /\
    Seq.seq r = Seq.seq x ++ Seq.seq y ++ Seq.seq z /\
    Seq.len r = Seq.len x + Seq.len y + Seq.len z.
Proof.
  intros Hy Hz.
  rewrite (add_same_class init1 x y) by (now symmetry).
  rewrite (add_same_class init1 y z) by congruence.
  eexists. eexists. eexists.
  split; [reflexivity |]. split; [reflexivity |].
  rewrite add_same_class by (cbn [Seq.cls]; congruence).
  rewrite add_same_class by (cbn [Seq.cls]; congruence).
  cbn [Seq.cls Seq.seq Seq.alphabet Seq.any_char].
  rewrite <- app_assoc.
  split; [reflexivity |]. split; [reflexivity |].
  split; [reflexivity |].
  unfold Seq.len. cbn [Seq.seq]. rewrite !length_app. lia.
Qed.

Lemma add_associative_witness :
  let dna := Seq.mkAlphabet "ATGC"%string None in
  let init1 := fun (_ : string) (_ : Seq.pyval) =>
                 @Raise Seq.Sequence AttributeError in
  let x := Seq.mkSequence "DNA" "AT"%string dna "N"%string "x"%string in
  let y := Seq.mkSequence "DNA" "G"%string dna "N"%string "y"%string in
  let z := Seq.mkSequence "DNA" "CC"%string dna "N"%string "z"%string in
  exists a b r,
    Seq.add init1 x (Seq.PySeq y) = Ok a /\
    Seq.add init1 y (Seq.PySeq z) = Ok b /\
    Seq.add init1 a (Seq.PySeq z) = Ok r /\
    Seq.add init1 x (Seq.PySeq b) = Ok r /\
    Seq.seq r = Seq.seq x ++ Seq.seq y ++ Seq.seq z /\
    Seq.len r = Seq.len x + Seq.len y + Seq.len z.
Proof.
  intros dna init1 x y z.
  apply (add_associative init1 x y z); reflexivity.
Defined.

Lemma rep_length (s : list ascii) (n : nat) :
  List.length (Spec.rep s n) = n * List.length s.
Proof.
  unfold Spec.rep. induction n as [| n IH]; [reflexivity |].
  cbn [repeat List.concat]. rewrite length_app, IH. simpl. lia.
Qed.

(** Repetition distributes over the sum of positive factors:
    [x * (m + n)] has the residues of [x * m + x * n], in a sequence of the
    same class, alphabet and wildcard, and its length is [(m + n) * len(x)].
    *)
Theorem mul_distributes
    (init1 : string -> Seq.pyval -> result Seq.Sequence)
    (x : Seq.Sequence) (m n : positive) :
  exists a b r s,
    Seq.mul init1 x (Seq.PyInt (Zpos m)) = Ok (Seq.PySeq a) /\
    Seq.mul init1 x (Seq.PyInt (Zpos n)) = Ok (Seq.PySeq b) /\
    Seq.mul init1 x (Seq.PyInt (Zpos m + Zpos n)) = Ok (Seq.PySeq r) /\
    Seq.add init1 a (Seq.PySeq b) = Ok s /\
    Seq.seq s = Seq.seq r /\
    Seq.eq s r = true /\
    Spec.same_meta r s /\
    Seq.len r = (Pos.to_nat m + Pos.to_nat n) * Seq.len x.
Proof.
  destruct (mul_positive init1 x m) as [a [Ha [Ham Has]]].
  destruct (mul_positive init1 x n) as [b [Hb [Hbm Hbs]]].
  destruct (mul_positive init1 x (m + n)) as [r [Hr [Hrm Hrs]]].
  destruct (add_same_meta init1 x a b Ham Hbm) as [s [Hs [Hsm Hss]]].
  exists a, b, r, s.
  assert (Heq : Seq.seq s = Seq.seq r).
  { rewrite Hss, Has, Hbs, Hrs, Pos2Nat.inj_add. symmetry. apply rep_add. }
  split; [exact Ha |]. split; [exact Hb |].
  split; [exact Hr |]. split; [exact Hs |]. split; [exact Heq |].
  split; [| split].
  - unfold Seq.eq, Seq.to_str. rewrite Heq.
    destruct (list_eq_dec ascii_dec (Seq.seq r) (Seq.seq r));
      [reflexivity | contradiction].
  - destruct Hrm as [H1 [H2 H3]], Hsm as [H4 [H5 H6]].
    repeat split; congruence.
  - unfold Seq.len. rewrite Hrs, rep_length, Pos2Nat.inj_add. reflexivity.
Qed.

Lemma add_name (init1 : string -> Seq.pyval -> result Seq.Sequence)
    (a r : Seq.Sequence) (o : Seq.pyval) :
  Seq.add init1 a o = Ok r -> Seq.name r = [].
Proof.
  unfold Seq.add. destruct (Seq.coerce init1 a o); cbn [bind];
    try discriminate.
  unfold Seq.copy, Seq.init. cbn [negb bind]. intros H. inversion H.
  reflexivity.
Qed.

Lemma decompose_loop_names
    (init1 : string -> Seq.pyval -> result Seq.Sequence) :
  forall todo binary ns counter ys e,
    Seq.decompose_loop init1 todo binary ns counter = (ys, e) ->
    Seq.name ns = [] ->
    Forall (fun y => Seq.name y = []) ys.
Proof.
  induction todo as [| todo IH]; intros binary ns counter ys e H Hn.
  - inversion H. constructor.
  - cbn [Seq.decompose_loop] in H.
    assert (Hy : Forall (fun y => Seq.name y = [])
                   (if (nth (List.length binary - counter) binary 0 =? 0)%Z
                    then [] else [ns]))
      by (destruct (_ =? 0)%Z; repeat constructor; assumption).
    destruct (Seq.add init1 ns (Seq.PySeq ns)) as [d | err |] eqn:Hd.
    + destruct (Seq.decompose_loop init1 todo binary d (counter + 1))
        as [rest ending] eqn:Hrest.
      inversion H. subst. apply Forall_app. split; [exact Hy |].
      eapply IH; [exact Hrest | eapply add_name; exact Hd].
    + inversion H. subst. exact Hy.
    + inversion H. subst. exact Hy.
Qed.

Lemma sum_from_names (init1 : string -> Seq.pyval -> result Seq.Sequence) :
  forall ys a v,
    ys <> [] ->
    Seq.sum_from init1 (Seq.PySeq a) ys = Ok v ->
    exists r, v = Seq.PySeq r /\ Seq.name r = [].
Proof.
  induction ys as [| y ys IH]; intros a v Hne H; [contradiction |].
  cbn [Seq.sum_from Seq.sum_step] in H.
  destruct (Seq.add init1 a (Seq.PySeq y)) as [d | err |] eqn:Hd;
    cbn [bind] in H; try discriminate.
  destruct ys as [| y' ys'].
  - cbn [Seq.sum_from] in H. inversion H. exists d.
    split; [reflexivity | eapply add_name; exact Hd].
  - eapply IH; [discriminate | exact H].
Qed.

(** The first turn of the loop on the digits [front ++ [b]], [front]
    holding a digit that is set: whatever is yielded after the sequence
    itself comes from a concatenation and has no name. *)
Lemma decompose_loop_first
    (init1 : string -> Seq.pyval -> result Seq.Sequence)
    (x : Seq.Sequence) (front : list Z) (b : Z) :
  0 < Spec.bits_value (rev front) ->
  exists ys,
    Seq.decompose_loop init1 (List.length (front ++ [b])) (front ++ [b])
      x 1 = ((if (b =? 0)%Z then [] else [x]) ++ ys, Ok tt) /\
    ys <> [] /\
    Forall (fun y => Seq.name y = []) ys.
Proof.
  intros Hpos.
  assert (Hnth : nth (List.length (front ++ [b]) - 1) (front ++ [b]) 0%Z
                 = b).
  { rewrite length_app. cbn [List.length].
    replace (List.length front + 1 - 1) with (List.length front) by lia.
    apply nth_middle. }
  assert (Hlen : List.length (front ++ [b]) = S (List.length front))
    by (rewrite length_app; simpl; lia).
  rewrite Hlen. cbn [Seq.decompose_loop]. rewrite Hnth.
  rewrite (add_same_class init1 x x eq_refl).
  set (d := Seq.mkSequence _ _ _ _ _).
  destruct (decompose_loop_spec init1 x front [b] d 2)
    as [ys [Hys [_ [_ [_ Hne]]]]].
  - repeat split.
  - unfold Spec.rep. simpl. now rewrite app_nil_r.
  - cbn [List.length] in Hys. cbn [Nat.add]. rewrite Hys.
    exists ys. split; [reflexivity |]. split; [now apply Hne |].
    eapply decompose_loop_names; [exact Hys | reflexivity].
Qed.

(** The name under repetition: [x * 1] is [x] itself, name included; for
    every greater factor the result was put together by [+] and has the
    empty name. *)
Theorem mul_name (init1 : string -> Seq.pyval -> result Seq.Sequence)
    (x : Seq.Sequence) (p : positive) :
  exists r,
    Seq.mul init1 x (Seq.PyInt (Zpos p)) = Ok (Seq.PySeq r) /\
    (p = 1%positive -> r = x) /\
    (p <> 1%positive -> Seq.name r = []).
Proof.
  destruct (mul_positive init1 x p) as [r [Hr _]].
  exists r. split; [exact Hr |].
  revert Hr. unfold Seq.mul. cbn [Seq.py_int bind Seq.py_ne_int].
  rewrite Z.eqb_refl. cbn [negb]. unfold Seq._decompose.
  cbn [Seq.py_bin bind PyStr.bin]. cbn [list_ascii_of_string app skipn].
  rewrite ints_of_bin_digits.
  assert (Htail : forall (q : positive) (b : Z),
             exists y ys,
               Seq.collect
                 (Seq.decompose_loop init1
                    (List.length (Spec.bits q ++ [b]))
                    (Spec.bits q ++ [b]) x 1) = Ok (y :: ys) /\
               ((ys = [] /\ Seq.name y = []) \/ ys <> [])).
  { intros q b.
    destruct (decompose_loop_first init1 x (Spec.bits q) b)
      as [ys [Hys [Hne Hnames]]].
    { rewrite bits_value_rev_bits. apply Pos2Nat.is_pos. }
    rewrite Hys. unfold Seq.collect. cbn [fst snd bind].
    destruct ys as [| y ys]; [contradiction |].
    destruct (b =? 0)%Z; cbn [app].
    - exists y, ys. split; [reflexivity |].
      destruct ys; [left | right; discriminate].
      split; [reflexivity |]. now inversion Hnames.
    - exists x, (y :: ys). split; [reflexivity |]. right. discriminate. }
  assert (Hsum : forall y ys v,
             ((ys = [] /\ Seq.name y = []) \/ ys <> []) ->
             Seq.sum init1 (y :: ys) = Ok (Seq.PySeq v) ->
             Seq.name v = []).
  { intros y ys v Hcase H. unfold Seq.sum in H.
    cbn [Seq.sum_from Seq.sum_step] in H. unfold Seq.radd in H.
    cbn [Seq.py_eq_zero Z.eqb orb bind] in H.
    destruct Hcase as [[-> Hn] | Hne].
    - cbn [Seq.sum_from] in H. inversion H. subst. exact Hn.
    - destruct (sum_from_names init1 ys y _ Hne H) as [r' [He Hn]].
      inversion He. subst. exact Hn. }
  destruct p as [q | q |]; cbn [Spec.bits].
  - intros Hr. split; [discriminate |]. intros _.
    destruct (Htail q 1%Z) as [y [ys [He Hcase]]].
    rewrite He in Hr. cbn [bind] in Hr.
    eapply Hsum; [exact Hcase | exact Hr].
  - intros Hr. split; [discriminate |]. intros _.
    destruct (Htail q 0%Z) as [y [ys [He Hcase]]].
    rewrite He in Hr. cbn [bind] in Hr.
    eapply Hsum; [exact Hcase | exact Hr].
  - cbn [List.length Seq.decompose_loop nth Nat.sub Z.eqb].
    rewrite (add_same_class init1 x x eq_refl).
    unfold Seq.collect, Seq.sum. cbn [fst snd bind app].
    cbn [Seq.sum_from Seq.sum_step]. unfold Seq.radd.
    cbn [Seq.py_eq_zero Z.eqb orb bind].
    intros Hr. split; [| intros H; now contradiction H].
    intros _. inversion Hr. reflexivity.
Qed.

(** ** Search, slices and construction together *)

(** [q in x], for a query without characters special to [re] and a
    wildcard that is one such character: true exactly when the upper-cased
    query lies somewhere on the sequence, the wildcard standing for any
    character.  A query longer than the sequence is simply not contained,
    where [locate] raises [ValueError]. *)
Theorem contains_occurrence (x : Seq.Sequence) (q : list ascii)
    (w : ascii) :
  Seq.any_char x = [w] ->
  Re.special w = false ->
  (forall c, In c (PyStr.upper q) -> Re.special c = false) ->
  exists b,
    Seq.contains x q = Ok b /\
    (b = true <->
     exists i, Spec.occurs_at w (PyStr.upper q) (Seq.seq x) i) /\
    (Seq.len x < List.length q ->
     b = false /\ Seq.locate x q = Raise ValueError).
Proof.
  intros Hw Hsw Hplain.
  assert (Hocc : Re.search_from (map (Spec.atom_of w) (PyStr.upper q))
                   (Seq.seq x) = true <->
                 exists i, Spec.occurs_at w (PyStr.upper q) (Seq.seq x) i).
  { rewrite search_from_spec. split.
    - intros [d [Hd Hm]]. exists d. apply match_here_spec in Hm.
      now apply (occurs_at_skipn _ _ _ _ Hd) in Hm.
    - intros [i Hi]. exists i.
      assert (Hd : i <= List.length (Seq.seq x)) by (destruct Hi; lia).
      split; [exact Hd |]. apply match_here_spec.
      now apply (occurs_at_skipn _ _ _ _ Hd). }
  exists (Re.search_from (map (Spec.atom_of w) (PyStr.upper q))
            (Seq.seq x)).
  split; [| split; [exact Hocc |]].
  - unfold Seq.contains, Re.sub. rewrite Hw. cbn [existsb].
    rewrite Hsw. cbn [orb bind]. rewrite replace_one_char.
    unfold Re.search. rewrite (parse_translated w)
      by (intros c Hc; right; now apply Hplain).
    cbn [bind]. unfold Seq.to_str. now destruct (Re.search_from _ _).
  - intros Hlen. split.
    + apply not_true_is_false. intros Hs.
      apply Hocc in Hs. destruct Hs as [i [Hi _]].
      rewrite upper_length in Hi. unfold Seq.len in Hlen. lia.
    + unfold Seq.locate. apply Nat.ltb_lt in Hlen. now rewrite Hlen.
Qed.

Lemma contains_occurrence_witness :
  let x := Seq.mkSequence "Sequence" "ATGATGA"%string
             (Seq.mkAlphabet "ATGCN"%string None) "N"%string [] in
  exists b,
    Seq.contains x "gna"%string = Ok b /\
    (b = true <->
     exists i, Spec.occurs_at "N" (PyStr.upper "gna"%string) (Seq.seq x) i)
    /\
    (Seq.len x < 3 -> b = false /\ Seq.locate x "gna"%string
                                   = Raise ValueError).
Proof.
  intros x. apply (contains_occurrence x "gna"%string "N"%char).
  - reflexivity.
  - reflexivity.
  - intros c Hc. simpl in Hc.
    repeat (destruct Hc as [<- | Hc]; [reflexivity |]). contradiction.
Defined.

Lemma lookahead_starts_nil (s : list ascii) :
  forall i, Re.lookahead_starts [] i s = List.seq i (S (List.length s)).
Proof.
  induction s as [| c s IH]; intros i; [reflexivity |].
  cbn [Re.lookahead_starts Re.match_here app List.length List.seq].
  now rewrite IH.
Qed.

(** The empty pattern on a non-empty sequence (the wildcard being any
    non-empty string): [locate] reports every offset from [0] to
    [len - 1], and then [0] a second time, for the match at the very end
    reduced modulo the length. *)
Theorem locate_empty_pattern (x : Seq.Sequence) :
  Seq.any_char x <> [] ->
  0 < Seq.len x ->
  Seq.locate x [] =
  Ok (map Z.of_nat (List.seq 0 (Seq.len x)) ++ [0%Z]).
Proof.
  intros Hany Hpos. unfold Seq.locate.
  cbn [List.length PyStr.upper map Nat.ltb Nat.leb].
  unfold PyStr.replace. cbn [PyStr.replace_from].
  destruct (Seq.any_char x) as [| a any]; [contradiction |].
  unfold Re.finditer_lookahead. cbn [Re.parse bind].
  rewrite lookahead_starts_nil, (mapM_py_mod_pos _ _ Hpos).
  fold (Seq.len x). rewrite seq_S, map_app. cbn [map Nat.add].
  rewrite Z_mod_same_full. do 2 f_equal.
  apply map_ext_in. intros i Hi. apply in_seq in Hi.
  apply Z.mod_small. lia.
Qed.

Lemma locate_empty_pattern_witness :
  let x := Seq.mkSequence "Sequence" "ATG"%string
             (Seq.mkAlphabet "ATGCN"%string None) "N"%string [] in
  Seq.locate x [] = Ok [0; 1; 2; 0]%Z.
Proof.
  intros x. apply (locate_empty_pattern x); [discriminate | cbn; lia].
Defined.

Lemma upper_upper (s : list ascii) :
  PyStr.upper (PyStr.upper s) = PyStr.upper s.
Proof.
  unfold PyStr.upper. rewrite map_map. apply map_ext, upper_char_idem.
Qed.

Lemma upper_lower (s : list ascii) :
  PyStr.upper (PyStr.lower s) = PyStr.upper s.
Proof.
  unfold PyStr.upper, PyStr.lower. rewrite map_map.
  apply map_ext, upper_lower_char_any.
Qed.

(** The case of the pattern plays no part: [locate] and [in] give for
    [p.upper()] and for [p.lower()] what they give for [p], errors
    included. *)
Theorem search_ignores_pattern_case (x : Seq.Sequence) (p : list ascii) :
  Seq.locate x (PyStr.upper p) = Seq.locate x p /\
  Seq.locate x (PyStr.lower p) = Seq.locate x p /\
  Seq.contains x (PyStr.upper p) = Seq.contains x p /\
  Seq.contains x (PyStr.lower p) = Seq.contains x p.
Proof.
  unfold Seq.locate, Seq.contains.
  rewrite upper_upper, upper_lower, upper_length.
  assert (Hl : List.length (PyStr.lower p) = List.length p)
    by apply length_map.
  rewrite Hl. repeat split.
Qed.

Lemma cut_inside (len k : nat) :
  k <= len -> Spec.cut len (Z.of_nat k) = k.
Proof.
  intros H. unfold Spec.cut.
  destruct (Z.of_nat k <? 0)%Z eqn:Hk;
    [apply Z.ltb_lt in Hk | apply Z.ltb_ge in Hk]; lia.
Qed.

(** Each offset [i] that [locate] returns for a pattern [p] without the
    wildcard is a place where the sequence reads [p]: the slice
    [x[i : i + len(p)]] has exactly the residues [p.upper()]. *)
Theorem locate_then_slice (x : Seq.Sequence) (p : list ascii) (w : ascii) :
  Seq.any_char x = [w] ->
  (forall c, In c (PyStr.upper p) -> c <> w /\ Re.special c = false) ->
  0 < List.length p ->
  List.length p <= Seq.len x ->
  exists l,
    Seq.locate x p = Ok l /\
    forall i, In i l ->
      exists y,
        Items.getitem x
          (PySlice.KSlice (Some i)
             (Some (i + Z.of_nat (List.length p))%Z) None) = Ok y /\
        Seq.seq y = PyStr.upper p /\
        Spec.same_meta x y.
Proof.
  intros Hw Hplain Hpos Hlen.
  rewrite (locate_eval x p w Hw) by
    (try assumption; intros c Hc; right; now apply Hplain).
  eexists. split; [reflexivity |].
  intros i Hi. apply in_map_iff in Hi. destruct Hi as [j [<- Hj]].
  apply lookahead_starts_occurs in Hj. destruct Hj as [Hb Hk].
  rewrite upper_length in Hb, Hk. unfold Seq.len in Hlen.
  assert (Hne : Seq.seq x <> []).
  { intros He. rewrite He in Hlen. simpl in Hlen. lia. }
  rewrite (getitem_nonempty x _ Hne), getitem_slice_forward.
  rewrite <- Nat2Z.inj_add, !cut_inside by lia. cbn [bind].
  eexists. split; [reflexivity |]. cbn [Seq.seq].
  split; [| repeat split].
  replace (j + List.length p - j) with (List.length p) by lia.
  apply (nth_ext _ _ zero zero).
  - rewrite length_firstn, length_skipn, upper_length. lia.
  - intros k Hklt.
    rewrite length_firstn, length_skipn in Hklt.
    assert (Hkp : k < List.length p) by lia.
    rewrite nth_firstn, nth_skipn.
    apply Nat.ltb_lt in Hkp. rewrite Hkp. apply Nat.ltb_lt in Hkp.
    specialize (Hk k Hkp). unfold Spec.wild in Hk.
    destruct (Hplain (nth k (PyStr.upper p) zero)) as [Hnw _].
    { apply nth_In. rewrite upper_length. exact Hkp. }
    apply Ascii.eqb_neq in Hnw. rewrite Hnw in Hk. now symmetry.
Qed.

Lemma locate_then_slice_witness :
  let x := Seq.mkSequence "Sequence" "ATGATGA"%string
             (Seq.mkAlphabet "ATGCN"%string None) "N"%string [] in
  exists l,
    Seq.locate x "tga"%string = Ok l /\
    forall i, In i l ->
      exists y,
        Items.getitem x
          (PySlice.KSlice (Some i) (Some (i + 3)%Z) None) = Ok y /\
        Seq.seq y = list_ascii_of_string "TGA" /\
        Spec.same_meta x y.
Proof.
  intros x. apply (locate_then_slice x "tga"%string "N"%char).
  - reflexivity.
  - intros c Hc. simpl in Hc.
    repeat (destruct Hc as [<- | Hc]; [split; [discriminate | reflexivity] |]).
    contradiction.
  - cbn. lia.
  - cbn. lia.
Defined.

(** A sequence that passed the check can be built again from its own
    string, with or without the check, and the same instance comes out:
    its residues are upper-case already and all in the alphabet. *)
Theorem init_round_trip (c : string) (s : list ascii) (a : Seq.Alphabet)
    (any_char : list ascii) (name : option (list ascii))
    (x : Seq.Sequence) :
  Seq.init c s a false any_char name = Ok x ->
  Seq.init c (Seq.to_str x) a false any_char name = Ok x /\
  Seq.init c (Seq.to_str x) a true any_char name = Ok x /\
  Spec.valid_in a (Seq.seq x) /\
  PyStr.upper (Seq.seq x) = Seq.seq x.
Proof.
  intros H.
  assert (Hne : Seq.symbols a <> []).
  { intros He. unfold Seq.init in H. rewrite He in H. discriminate. }
  rewrite (init_checked _ _ _ _ _ Hne) in H.
  destruct (forallb _ (PyStr.upper s)) eqn:Hv; [| discriminate].
  inversion H. subst x. unfold Seq.to_str. cbn [Seq.seq].
  rewrite (init_checked _ _ _ _ _ Hne), upper_upper, Hv.
  split; [reflexivity |]. split; [reflexivity |].
  split; [now apply valid_in_forallb | reflexivity].
Qed.

Lemma init_round_trip_witness :
  let dna := Seq.mkAlphabet "ATGCN"%string None in
  let x := Seq.mkSequence "DNA" "ATGNC"%string dna "N"%string [] in
  Seq.init "DNA" "atgNc"%string dna false "N"%string None = Ok x /\
  Seq.init "DNA" (Seq.to_str x) dna false "N"%string None = Ok x /\
  Seq.init "DNA" (Seq.to_str x) dna true "N"%string None = Ok x /\
  Spec.valid_in dna (Seq.seq x) /\
  PyStr.upper (Seq.seq x) = Seq.seq x.
Proof.
  intros dna x.
  assert (H : Seq.init "DNA" "atgNc"%string dna false "N"%string None
              = Ok x) by reflexivity.
  split; [exact H |].
  exact (init_round_trip "DNA" "atgNc"%string dna "N"%string None x H).
Defined.

(** ** Features: construction and moves *)

(** [move] shifts [start] and [stop] by the same amount and touches
    nothing else: the gaps are not shifted and the feature is not flagged
    as modified.  Moves add up, a move is undone by the opposite move, the
    length [stop - start] is kept, and the moved feature equals the
    original only when it was moved by [0]. *)
Theorem feature_move_compose (f : Feat.Feature) (a b : Z) :
  Feat.move (Feat.move f a) b = Feat.move f (a + b) /\
  Feat.move (Feat.move f a) (- a) = f /\
  (Feat.stop (Feat.move f a) - Feat.start (Feat.move f a)
   = Feat.stop f - Feat.start f)%Z /\
  Feat.gaps (Feat.move f a) = Feat.gaps f /\
  Feat.modified (Feat.move f a) = Feat.modified f /\
  (Feat.eq (Feat.move f a) f = true <-> a = 0%Z).
Proof.
  destruct f as [n st sp md g lt q sd gp ft]. unfold Feat.move.
  cbn [Feat.name Feat.start Feat.stop Feat.modified Feat.gene
       Feat.locus_tag Feat.qualifiers Feat.strand Feat.gaps
       Feat.feature_type].
  split; [f_equal; lia |]. split; [f_equal; lia |].
  split; [lia |]. split; [reflexivity |]. split; [reflexivity |].
  rewrite feature_eq_iff. cbn. split.
  - intros [_ [_ [H _]]]. lia.
  - intros ->. rewrite !Z.add_0_r. repeat split.
Qed.

(** Construction succeeds exactly for the recognised feature types and
    raises [ValueError] for any other; a feature just built is not flagged
    as modified, its copy always succeeds, and the copy equals it exactly
    when it was built without gaps. *)
Theorem feature_init_then_copy (featurenames : list (list ascii))
    (name : list ascii) (start stop : Z) (feature_type gene locus_tag
    : list ascii) (qualifiers : option (list (list ascii * list ascii)))
    (strand : Z) (gaps : option (list (Z * Z))) :
  (In feature_type featurenames ->
   exists f g,
     Feat.init featurenames name start stop feature_type gene locus_tag
       qualifiers strand gaps = Ok f /\
     Feat.modified f = false /\
     Feat.copy featurenames f = Ok g /\
     (Feat.eq g f = true <-> gaps = None \/ gaps = Some [])) /\
  (~ In feature_type featurenames ->
   Feat.init featurenames name start stop feature_type gene locus_tag
     qualifiers strand gaps = Raise ValueError).
Proof.
  unfold Feat.copy, Feat.init.
  pose proof (featurenames_mem featurenames feature_type) as Hm.
  cbn [Feat.name Feat.start Feat.stop Feat.feature_type Feat.gene
       Feat.locus_tag Feat.qualifiers Feat.strand].
  destruct (existsb (Feat.str_eqb feature_type) featurenames) eqn:He.
  - split; [| intros Hn; exfalso; apply Hn, Hm; reflexivity].
    intros _. eexists. eexists. split; [reflexivity |].
    cbn [Feat.name Feat.start Feat.stop Feat.feature_type Feat.gene
         Feat.locus_tag Feat.qualifiers Feat.strand Feat.modified].
    rewrite He. split; [reflexivity |]. split; [reflexivity |].
    rewrite feature_eq_iff. cbn. split.
    + intros [_ [_ [_ [_ [_ Hg]]]]].
      destruct gaps as [g |]; [right; now subst | now left].
    + intros [-> | ->]; repeat split.
  - split; [| reflexivity]. intros Hin. apply Hm in Hin. discriminate.
Qed.

Lemma feature_init_then_copy_witness :
  let kinds := [list_ascii_of_string "CDS";
                list_ascii_of_string "misc_feature"] in
  (exists f g,
     Feat.init kinds "lacZ"%string 10 250 "CDS"%string []  [] None 1
       (Some [(40, 60)%Z]) = Ok f /\
     Feat.modified f = false /\
     Feat.copy kinds f = Ok g /\
     (Feat.eq g f = true <->
      Some [(40, 60)%Z] = None \/ Some [(40, 60)%Z] = Some [])) /\
  Feat.init kinds "lacZ"%string 10 250 "gene"%string [] [] None 1 None
  = Raise ValueError.
Proof.
  intros kinds. split.
  - apply (proj1 (feature_init_then_copy kinds "lacZ"%string 10 250
                    "CDS"%string [] [] None 1 (Some [(40, 60)%Z]))).
    simpl. tauto.
  - apply (proj2 (feature_init_then_copy kinds "lacZ"%string 10 250
                    "gene"%string [] [] None 1 None)).
    simpl. intros [H | [H | []]]; discriminate.
Defined.
